(** * Payload construction of the Node metrics SDK

    A shallow embedding of [constructPayload] and [getProto] of the Node
    package, together with the JavaScript primitives they rely on:
    truthiness of optional values, subtraction of time values as doubles,
    [Date.prototype.toISOString] and the [uuid] package's [v4]. The URL
    constructor and the package's two serializers, [process-request] and
    [process-response], are parameters. The field filter and the body
    classifier, which live in those serializers, are modelled from the
    specification. *)

From Stdlib Require Import ZArith Lia List String Ascii Bool.
From Stdlib.Strings Require Import Byte.
From stdpp Require Import base option gmap strings.
Import ListNotations.
Open Scope Z_scope.

(** ** Exceptions

    Code that may throw returns a [Result]; [let*] sequences two computations
    the way JavaScript evaluates two sub-expressions, the first [Throw]
    aborting everything after it. *)

Inductive JsError : Type :=
  | TypeError (message : string)
  | RangeError (message : string)
  | SyntaxError (message : string)
  | Thrown (value : string).

Inductive Result (A : Type) : Type :=
  | Ok (a : A)
  | Throw (e : JsError).

Arguments Ok {A} a.
Arguments Throw {A} e.

Definition bind {A B : Type} (r : Result A) (k : A -> Result B) : Result B :=
  match r with
  | Ok a => k a
  | Throw e => Throw e
  end.

Notation "'let*' x ':=' r 'in' k" := (bind r (fun x => k))
  (at level 10, x name, r at level 100, k at level 200).

Definition isOk {A : Type} (r : Result A) : bool :=
  match r with Ok _ => true | Throw _ => false end.

(** ** JavaScript values *)

Module Js.

(** A number that holds an integer or [NaN]; time values and their
    differences are the only numbers of this program. *)
Inductive Number : Type :=
  | Num (z : Z)
  | NaN.

(** [ToBoolean] of a [string | undefined]: [undefined] and the empty string
    are falsy. *)
Definition truthyString (o : option string) : bool :=
  match o with
  | Some s => negb (String.eqb s "")
  | None => false
  end.

(** [ToBoolean] of a [boolean | undefined]. *)
Definition truthyBool (o : option bool) : bool :=
  match o with
  | Some b => b
  | None => false
  end.

(** [a || b] on a [string | undefined] left operand; [b] is only used when
    [a] is falsy. *)
Definition orElse (a : option string) (b : string) : string :=
  match a with
  | Some s => if String.eqb s "" then b else s
  | None => b
  end.

(** [`${v}`] for a [string | undefined]. *)
Definition interpolate (o : option string) : string :=
  match o with
  | Some s => s
  | None => "undefined"
  end.

(** Integers up to [2^53] in magnitude are doubles. *)
Definition maxExact : Z := 2 ^ 53.

(** Round-to-nearest, ties-to-even, of an integer [d] with [|d| < 2^54]:
    exact up to [2^53]; above it the doubles are the even integers, an odd
    [d] is a tie, and the neighbour with the even significand is the
    multiple of four. *)
Definition roundDouble (d : Z) : Z :=
  if Z.abs d <=? maxExact then d
  else if Z.even d then d
  else if d mod 4 =? 1 then d - 1 else d + 1.

(** [x < 0]; no comparison with [NaN] holds. *)
Definition isNegative (x : Number) : bool :=
  match x with
  | Num z => z <? 0
  | NaN => false
  end.

(** [a - b] on numbers. *)
Definition sub (a b : Number) : Number :=
  match a, b with
  | Num x, Num y => Num (roundDouble (x - y))
  | _, _ => NaN
  end.

End Js.

(** ** Dates *)

Module Date.

(** A [Date] holds a time value: milliseconds since the epoch, or [NaN] for
    an invalid date. *)
Record t : Type := mk { timeValue : Js.Number }.

(** The largest magnitude [TimeClip] lets through: 100,000,000 days. *)
Definition maxTime : Z := 8640000000000000.

(** [new Date(value)]. *)
Definition ofNumber (v : Js.Number) : t :=
  match v with
  | Js.Num z => if Z.abs z <=? maxTime then mk (Js.Num z) else mk Js.NaN
  | Js.NaN => mk Js.NaN
  end.

(** The dates JavaScript can build. *)
Definition wf (d : t) : Prop :=
  match timeValue d with
  | Js.Num z => Z.abs z <= maxTime
  | Js.NaN => True
  end.

Definition getTime (d : t) : Js.Number := timeValue d.

Definition msPerDay : Z := 86400000.

(** Calendar fields of a finite time value. *)
Record Fields : Type := mkFields
  { year : Z; month : Z; day : Z;
    hours : Z; minutes : Z; seconds : Z; millis : Z }.

(** Proleptic Gregorian date of a day number (days since 1970-01-01), by
    eras of 400 years starting on March 1st. *)
Definition civilFromDays (days : Z) : Z * Z * Z :=
  let z := days + 719468 in
  let era := z / 146097 in
  let doe := z mod 146097 in
  let yoe := (doe - doe / 1460 + doe / 36524 - doe / 146096) / 365 in
  let doy := doe - (365 * yoe + yoe / 4 - yoe / 100) in
  let mp := (5 * doy + 2) / 153 in
  let d := doy - (153 * mp + 2) / 5 + 1 in
  let m := if mp <? 10 then mp + 3 else mp - 9 in
  let y := yoe + era * 400 + (if m <=? 2 then 1 else 0) in
  (y, m, d).

Definition fieldsOf (tv : Z) : Fields :=
  let '(y, m, d) := civilFromDays (tv / msPerDay) in
  {| year := y; month := m; day := d;
     hours := (tv / 3600000) mod 24;
     minutes := (tv / 60000) mod 60;
     seconds := (tv / 1000) mod 60;
     millis := tv mod 1000 |}.

(** ECMAScript's own day arithmetic, against which [civilFromDays] is
    checked: leap years, the day number of January 1st, and the days of a
    year that precede a month (month 13 standing for the next January). *)
Definition isLeap (y : Z) : bool :=
  (y mod 4 =? 0) && (negb (y mod 100 =? 0) || (y mod 400 =? 0)).

Definition dayFromYear (y : Z) : Z :=
  365 * (y - 1970) + (y - 1969) / 4 - (y - 1901) / 100 + (y - 1601) / 400.

Definition daysBeforeMonth (leap : bool) (m : Z) : Z :=
  let l := if leap then 1 else 0 in
  if m <=? 1 then 0 else if m =? 2 then 31 else if m =? 3 then 59 + l
  else if m =? 4 then 90 + l else if m =? 5 then 120 + l
  else if m =? 6 then 151 + l else if m =? 7 then 181 + l
  else if m =? 8 then 212 + l else if m =? 9 then 243 + l
  else if m =? 10 then 273 + l else if m =? 11 then 304 + l
  else if m =? 12 then 334 + l else 365 + l.

Definition digitChar (d : Z) : ascii := ascii_of_N (48 + Z.to_N d).

Definition digitValue (c : ascii) : Z := Z.of_N (N_of_ascii c) - 48.

(** The number a string of digits spells. *)
Fixpoint digitsValue (s : string) : Z :=
  match s with
  | EmptyString => 0
  | String c s' => digitValue c * 10 ^ Z.of_nat (String.length s') + digitsValue s'
  end.

(** The [w] low decimal digits of [n], most significant first. *)
Fixpoint padDigits (w : nat) (n : Z) : string :=
  match w with
  | O => EmptyString
  | S w' => String (digitChar ((n / 10 ^ Z.of_nat w') mod 10)) (padDigits w' n)
  end.

(** Four digits for the years 0 to 9999, otherwise a sign and six digits. *)
Definition yearString (y : Z) : string :=
  if (0 <=? y) && (y <=? 9999) then padDigits 4 y
  else String (if y <? 0 then "-"%char else "+"%char) (padDigits 6 (Z.abs y)).

Definition formatFields (f : Fields) : string :=
  yearString (year f) +:+ "-" +:+ padDigits 2 (month f) +:+ "-" +:+
  padDigits 2 (day f) +:+ "T" +:+ padDigits 2 (hours f) +:+ ":" +:+
  padDigits 2 (minutes f) +:+ ":" +:+ padDigits 2 (seconds f) +:+ "." +:+
  padDigits 3 (millis f) +:+ "Z".

(** [toISOString()]: a [RangeError] on an invalid date. *)
Definition toISOString (d : t) : Result string :=
  match timeValue d with
  | Js.Num tv => Ok (formatFields (fieldsOf tv))
  | Js.NaN => Throw (RangeError "Invalid time value")
  end.

End Date.









(** ** Character patterns

    The shapes the wire format promises (timestamps, identifiers) are
    fixed-length sequences of character classes; a string matches when it has
    the pattern's length and every character is in its class. *)

Module Pattern.

Inductive Class : Type :=
  | Digit                  (* 0-9 *)
  | Hex                    (* 0-9 a-f *)
  | Variant                (* 8 9 a b *)
  | Sign                   (* + - *)
  | Lit (c : ascii).

Definition code (c : ascii) : N := N_of_ascii c.

Definition isDigit (c : ascii) : bool :=
  ((48 <=? code c) && (code c <=? 57))%N.

Definition isHex (c : ascii) : bool :=
  (isDigit c || ((97 <=? code c) && (code c <=? 102)))%N.

Definition inClass (k : Class) (c : ascii) : bool :=
  match k with
  | Digit => isDigit c
  | Hex => isHex c
  | Variant => existsb (Ascii.eqb c) ["8"; "9"; "a"; "b"]%char
  | Sign => existsb (Ascii.eqb c) ["+"; "-"]%char
  | Lit c' => Ascii.eqb c c'
  end.

Fixpoint matches (p : list Class) (s : string) : bool :=
  match p, s with
  | [], EmptyString => true
  | k :: p', String c s' => inClass k c && matches p' s'
  | _, _ => false
  end.

Definition lits (s : string) : list Class :=
  map Lit (list_ascii_of_string s).

(** [\d{4}-\d{2}-\d{2}T\d{2}:\d{2}:\d{2}\.\d{3}Z], the whole string. *)
Definition isoDate : list Class :=
  repeat Digit 4 ++ lits "-" ++ repeat Digit 2 ++ lits "-" ++
  repeat Digit 2 ++ lits "T" ++ repeat Digit 2 ++ lits ":" ++
  repeat Digit 2 ++ lits ":" ++ repeat Digit 2 ++ lits "." ++
  repeat Digit 3 ++ lits "Z".

(** The same with an expanded year: a sign and six digits. *)
Definition isoDateExpanded : list Class :=
  Sign :: repeat Digit 2 ++ isoDate.

(** ISO-8601 date-time in UTC with exactly three fractional digits. *)
Definition isIsoUtcMillis (s : string) : bool :=
  matches isoDate s || matches isoDateExpanded s.

(** [xxxxxxxx-xxxx-4xxx-Vxxx-xxxxxxxxxxxx], lower-case hexadecimal, [V] one
    of 8, 9, a, b. *)
Definition uuidV4 : list Class :=
  repeat Hex 8 ++ lits "-" ++ repeat Hex 4 ++ lits "-" ++
  Lit "4" :: repeat Hex 3 ++ lits "-" ++
  Variant :: repeat Hex 3 ++ lits "-" ++ repeat Hex 12.

Definition isUuidV4 (s : string) : bool := matches uuidV4 s.

End Pattern.






(** ** uuid

    [v4] of the uuid package: sixteen random bytes, the version nibble forced
    to 4 and the two variant bits to 10, printed as lower-case hexadecimal in
    groups of 4-2-2-2-6 bytes. *)

Module Uuid.

(** The sixteen bytes the random source hands out, by index. *)
Definition Entropy : Type := nat -> byte.

Definition hexChar (n : N) : ascii :=
  nth (N.to_nat n) (list_ascii_of_string "0123456789abcdef") "0"%char.

(** [byteToHex[n]]: two hexadecimal digits. *)
Definition byteToHex (n : N) (rest : string) : string :=
  String (hexChar (n / 16)) (String (hexChar (n mod 16)) rest).

(** [rnds[6] = (rnds[6] & 0x0f) | 0x40; rnds[8] = (rnds[8] & 0x3f) | 0x80]. *)
Definition stamped (rnds : Entropy) (i : nat) : N :=
  let b := Byte.to_N (rnds i) in
  match i with
  | 6%nat => N.lor (N.land b 15) 64
  | 8%nat => N.lor (N.land b 63) 128
  | _ => b
  end.

Definition stringify (arr : nat -> N) : string :=
  let hex i rest := byteToHex (arr i) rest in
  let dash rest := String "-"%char rest in
  hex 0%nat (hex 1%nat (hex 2%nat (hex 3%nat (dash
  (hex 4%nat (hex 5%nat (dash
  (hex 6%nat (hex 7%nat (dash
  (hex 8%nat (hex 9%nat (dash
  (hex 10%nat (hex 11%nat (hex 12%nat (hex 13%nat (hex 14%nat (hex 15%nat
    EmptyString))))))))))))))))))).

Definition v4 (rnds : Entropy) : string := stringify (stamped rnds).

End Uuid.

(** ** The request, the options and the payload data *)

Module IncomingMessage.

(** [req.socket]: [encrypted] is only defined (and [true]) on a TLS socket. *)
Record Socket : Type := mkSocket
  { encrypted : option bool;
    remoteAddress : option string }.

(** The parts of Node's [IncomingMessage] the SDK reads; [headers] is keyed
    by lower-cased header name. *)
Record t : Type := mk
  { url : string;
    method : string;
    httpVersion : string;
    headers : gmap string string;
    socket : Socket }.

End IncomingMessage.

Module LogOptions.

Record t : Type := mk
  { denylist : option (list string);
    blacklist : option (list string);
    allowlist : option (list string);
    whitelist : option (list string);
    development : option bool;
    fireAndForget : option bool }.

End LogOptions.

Module PayloadData.

(** [Body] stands for [Record<string, unknown> | string]. *)
Record t (Body : Type) : Type := mk
  { apiKey : string;
    label : option string;
    email : option string;
    startedDateTime : Date.t;
    responseEndDateTime : Date.t;
    logId : option string;
    routePath : option string;
    requestBody : option Body;
    responseBody : option string }.

Arguments mk {Body}.
Arguments apiKey {Body}.
Arguments label {Body}.
Arguments email {Body}.
Arguments startedDateTime {Body}.
Arguments responseEndDateTime {Body}.
Arguments logId {Body}.
Arguments routePath {Body}.
Arguments requestBody {Body}.
Arguments responseBody {Body}.

Definition withApiKey {Body : Type} (key : string) (d : t Body) : t Body :=
  mk key (label d) (email d) (startedDateTime d) (responseEndDateTime d)
     (logId d) (routePath d) (requestBody d) (responseBody d).

End PayloadData.

(** ** The outgoing log body *)

Module Group.
Record t : Type := mk
  { id : string;
    label : option string;
    email : option string }.
End Group.

Module Creator.
Record t : Type := mk
  { name : string;
    version : string;
    comment : string }.
End Creator.

Module Timings.
Record t : Type := mk
  { wait : Js.Number;
    receive : Js.Number }.
End Timings.

Module Entry.

(** [cache] is always the empty object and carries no data. *)
Record t (Req Res : Type) : Type := mk
  { pageref : string;
    startedDateTime : string;
    time : Js.Number;
    request : Req;
    response : Res;
    cache : unit;
    timings : Timings.t }.

Arguments mk {Req Res}.
Arguments pageref {Req Res}.
Arguments startedDateTime {Req Res}.
Arguments time {Req Res}.
Arguments request {Req Res}.
Arguments response {Req Res}.
Arguments cache {Req Res}.
Arguments timings {Req Res}.

End Entry.

Module Log.

Record t (Req Res : Type) : Type := mk
  { version : string;
    creator : Creator.t;
    entries : list (Entry.t Req Res) }.

Arguments mk {Req Res}.
Arguments version {Req Res}.
Arguments creator {Req Res}.
Arguments entries {Req Res}.

End Log.

Module Har.

Record t (Req Res : Type) : Type := mk
  { log : Log.t Req Res }.

Arguments mk {Req Res}.
Arguments log {Req Res}.

End Har.

Module OutgoingLogBody.

Record t (Req Res : Type) : Type := mk
  { _id : string;
    group : Group.t;
    clientIPAddress : option string;
    development : bool;
    request : Har.t Req Res }.

Arguments mk {Req Res}.
Arguments _id {Req Res}.
Arguments group {Req Res}.
Arguments clientIPAddress {Req Res}.
Arguments development {Req Res}.
Arguments request {Req Res}.

(** [payload.request.log.entries] *)
Definition entries {Req Res : Type} (p : t Req Res) : list (Entry.t Req Res) :=
  Log.entries (Har.log (request p)).

Definition withGroupId {Req Res : Type} (key : string) (p : t Req Res) : t Req Res :=
  mk (_id p)
     (Group.mk key (Group.label (group p)) (Group.email (group p)))
     (clientIPAddress p) (development p) (request p).

End OutgoingLogBody.

(** ** constructPayload *)

(** What the process reports about itself: the package's version and the
    pieces of the creator comment. *)
Record Runtime : Type := mkRuntime
  { packageVersion : string;
    osArch : string;
    osPlatform : string;
    osRelease : string;
    nodeVersion : string }.

Section Construct.

(** [Body] is the request body as handed over, [ServerResponse] Node's
    response object, [Req] and [Res] the records the two serializers
    produce. *)
Context {Body ServerResponse Req Res : Type}.

(** [new URL(input, base).toString()]; [None] when the constructor rejects
    its input with a [TypeError]. *)
Variable newURL : string -> string -> option string.

(** The two serializers of the package, [process-request] and
    [process-response]. *)
Variable processRequest :
  IncomingMessage.t -> option Body -> option LogOptions.t -> Result Req.
Variable processResponse :
  ServerResponse -> option string -> option LogOptions.t -> Result Res.

Variable runtime : Runtime.

Definition getProto (req : IncomingMessage.t) : string :=
  if Js.truthyBool (IncomingMessage.encrypted (IncomingMessage.socket req))
  then "https" else "http".

(** [`${getProto(req)}://${req.headers.host}`] *)
Definition baseURL (req : IncomingMessage.t) : string :=
  getProto req +:+ "://" +:+
  Js.interpolate (IncomingMessage.headers req !! "host"%string).

(** [new URL(req.url, base).toString()] *)
Definition requestURL (req : IncomingMessage.t) : Result string :=
  match newURL (IncomingMessage.url req) (baseURL req) with
  | Some href => Ok href
  | None => Throw (TypeError "Invalid URL")
  end.

(** [`${os.arch()}-${os.platform()}${os.release()}/${process.versions.node}`] *)
Definition creatorComment : string :=
  osArch runtime +:+ "-" +:+ osPlatform runtime +:+ osRelease runtime +:+
  "/" +:+ nodeVersion runtime.

(** [logOptions?.development] *)
Definition developmentOption (logOptions : option LogOptions.t) : option bool :=
  match logOptions with
  | Some o => LogOptions.development o
  | None => None
  end.

(** [responseEndDateTime.getTime() - startedDateTime.getTime()] *)
Definition serverTime (payloadData : PayloadData.t Body) : Js.Number :=
  Js.sub (Date.getTime (PayloadData.responseEndDateTime payloadData))
         (Date.getTime (PayloadData.startedDateTime payloadData)).

(** [routePath ? routePath : new URL(req.url, base).toString()] *)
Definition pagerefOf (req : IncomingMessage.t) (payloadData : PayloadData.t Body)
    : Result string :=
  match PayloadData.routePath payloadData with
  | Some path => if Js.truthyString (Some path) then Ok path else requestURL req
  | None => requestURL req
  end.

(** [rnds] are the bytes the random source gives to [uuidv4()] should this
    call reach it. The fields are evaluated in the order of the object
    literal, so the first sub-expression that throws decides the error. *)
Definition constructPayload
    (rnds : Uuid.Entropy)
    (req : IncomingMessage.t) (res : ServerResponse)
    (payloadData : PayloadData.t Body) (logOptions : option LogOptions.t)
    : Result (OutgoingLogBody.t Req Res) :=
  let serverTime := serverTime payloadData in
  let _id := Js.orElse (PayloadData.logId payloadData) (Uuid.v4 rnds) in
  let* pageref := pagerefOf req payloadData in
  let* startedDateTime :=
    Date.toISOString (PayloadData.startedDateTime payloadData) in
  let* request :=
    processRequest req (PayloadData.requestBody payloadData) logOptions in
  let* response :=
    processResponse res (PayloadData.responseBody payloadData) logOptions in
  Ok {| OutgoingLogBody._id := _id;
        OutgoingLogBody.group :=
          {| Group.id := PayloadData.apiKey payloadData;
             Group.label := PayloadData.label payloadData;
             Group.email := PayloadData.email payloadData |};
        OutgoingLogBody.clientIPAddress :=
          IncomingMessage.remoteAddress (IncomingMessage.socket req);
        OutgoingLogBody.development :=
          Js.truthyBool (developmentOption logOptions);
        OutgoingLogBody.request :=
          {| Har.log :=
               {| Log.version := "1.2";
                  Log.creator :=
                    {| Creator.name := "readme-metrics (node)";
                       Creator.version := packageVersion runtime;
                       Creator.comment := creatorComment |};
                  Log.entries :=
                    [ {| Entry.pageref := pageref;
                         Entry.startedDateTime := startedDateTime;
                         Entry.time := serverTime;
                         Entry.request := request;
                         Entry.response := response;
                         Entry.cache := tt;
                         Entry.timings :=
                           {| Timings.wait := Js.Num 0;
                              Timings.receive := serverTime |} |} ] |} |} |}.

End Construct.

(** ** The field filter *)

Module FieldFilter.

(** One named field of a header list, a query string or a decoded body;
    file parts of a multipart body also carry [fileName] and
    [contentType]. *)
Record Field : Type := mkField
  { name : string;
    value : string;
    fileName : option string;
    contentType : option string }.

Record RedactionConfig : Type := mkConfig
  { denyList : gset string;
    allowList : gset string }.

Section Filter.

(** The marker a redacted value is replaced with. *)
Variable sentinel : string.

(** Modelled from the spec: the Field Filter's decision, of which the
    sources only hold the option comments ("If set, the denylist will be
    ignored"). For every field name, if allowList is non-empty, keep iff
    name is in allowList; else redact iff name is in denyList, else
    keep. Matching is on the literal name. *)
Definition keeps (cfg : RedactionConfig) (n : string) : bool :=
  if decide (allowList cfg = ∅)
  then negb (bool_decide (n ∈ denyList cfg))
  else bool_decide (n ∈ allowList cfg).

(** Modelled from the spec: the Field Filter on one field. Only the value
    is substituted; name, fileName and contentType stay visible. *)
Definition filterField (cfg : RedactionConfig) (f : Field) : Field :=
  if keeps cfg (name f) then f
  else {| name := name f; value := sentinel;
          fileName := fileName f; contentType := contentType f |}.

(** Modelled from the spec: the Field Filter on an ordered sequence of
    fields (header pairs, query pairs or body fields alike); it neither
    reorders nor drops fields. *)
Definition filterFields (cfg : RedactionConfig) (fs : list Field) : list Field :=
  map (filterField cfg) fs.

End Filter.

End FieldFilter.

(** ** The body classifier *)

Module BodyClassifier.

Import FieldFilter.

(** Exactly one of [text] and [params] is present. *)
Inductive BodyRecord : Type :=
  | TextForm (mimeType : string) (text : string)
  | ParamsForm (mimeType : string) (params : list Field).

Inductive Kind : Type :=
  | JsonFamily
  | UrlForm
  | Multipart
  | Unrecognized.

Definition hasSuffix (suffix s : string) : bool :=
  String.prefix (String.rev suffix) (String.rev s).

Fixpoint beforeParameters (s : string) : string :=
  match s with
  | EmptyString => EmptyString
  | String c s' =>
      if Ascii.eqb c ";" then EmptyString else String c (beforeParameters s')
  end.

Definition isBlank (c : ascii) : bool :=
  Ascii.eqb c " " || Ascii.eqb c "009".

Fixpoint trimEnd (s : string) : string :=
  match s with
  | EmptyString => EmptyString
  | String c s' =>
      match trimEnd s' with
      | EmptyString => if isBlank c then EmptyString else String c EmptyString
      | rest => String c rest
      end
  end.

(** Modelled from the spec: the type a content-type value declares, that
    is the value without its parameters ([; charset=...],
    [; boundary=...]) and the blanks before them. *)
Definition mediaType (contentType : string) : string :=
  trimEnd (beforeParameters contentType).

(** Modelled from the spec: the dispatch by content type of the Body
    Classifier ([process-request] and [process-response] are not among the
    sources). [application/json] or any type ending in [+json] is JSON,
    with or without parameters; the two form encodings are recognised by
    their type. *)
Definition kindOf (contentType : string) : Kind :=
  if String.prefix "application/json" contentType
     || hasSuffix "+json" (mediaType contentType) then JsonFamily
  else if String.prefix "application/x-www-form-urlencoded" contentType then UrlForm
  else if String.prefix "multipart/form-data" contentType then Multipart
  else Unrecognized.

(** The generic text type of a body with no usable content type. *)
Definition genericText : string := "text/plain".

Section Classify.

(** [JSON.parse], for its verdict only; it throws on a malformed text. *)
Variable parseJson : string -> Result unit.

(** The two form decoders. *)
Variable decodeUrlForm : string -> list Field.
Variable decodeMultipart : string -> string -> list Field.

(** Modelled from the spec: the Body Classifier. A zero-length body of
    any content type yields no record at all; a JSON body is echoed as
    text under its declared type, and a failed parse is caught and
    degrades to that same text form; forms are decoded into params;
    anything else is text under the generic type. *)
Definition classify (contentType : option string) (body : string)
    : Result (option BodyRecord) :=
  if String.eqb body "" then Ok None
  else
    match contentType with
    | None => Ok (Some (TextForm genericText body))
    | Some ct =>
        match kindOf ct with
        | JsonFamily =>
            match parseJson body with
            | Ok _ => Ok (Some (TextForm ct body))
            | Throw _ => Ok (Some (TextForm ct body))
            end
        | UrlForm => Ok (Some (ParamsForm ct (decodeUrlForm body)))
        | Multipart => Ok (Some (ParamsForm ct (decodeMultipart ct body)))
        | Unrecognized => Ok (Some (TextForm genericText body))
        end
    end.

End Classify.

End BodyClassifier.

(** ** A recogniser of JSON texts

    The grammar of RFC 8259, with fuel for the nesting; it plays the part of
    [JSON.parse] wherever an example needs a concrete parser. *)

Module Json.

Definition quote : ascii := "034"%char.
Definition backslash : ascii := "092"%char.

Definition oneOf (cs : list ascii) (c : ascii) : bool := existsb (Ascii.eqb c) cs.

Definition isWs : ascii -> bool := oneOf [" "; "009"; "010"; "013"]%char.

Definition isHexDigit (c : ascii) : bool :=
  Pattern.isHex c || ((65 <=? Pattern.code c) && (Pattern.code c <=? 70))%N.

Fixpoint skipWs (s : list ascii) : list ascii :=
  match s with
  | c :: r => if isWs c then skipWs r else s
  | [] => []
  end.

Fixpoint skipDigits (s : list ascii) : list ascii :=
  match s with
  | c :: r => if Pattern.isDigit c then skipDigits r else s
  | [] => []
  end.

(** One digit or more. *)
Definition digits1 (s : list ascii) : option (list ascii) :=
  match s with
  | c :: r => if Pattern.isDigit c then Some (skipDigits r) else None
  | [] => None
  end.

(** An optional minus, an integer part with no leading zero, an optional
    fraction and an optional exponent. *)
Definition number (s : list ascii) : option (list ascii) :=
  let unsigned :=
    match s with
    | c :: r => if Ascii.eqb c "-" then r else s
    | [] => s
    end in
  let int :=
    match unsigned with
    | c :: r => if Ascii.eqb c "0" then Some r else digits1 unsigned
    | [] => None
    end in
  let frac :=
    match int with
    | Some (c :: r) => if Ascii.eqb c "." then digits1 r else int
    | _ => int
    end in
  match frac with
  | Some (c :: r) =>
      if oneOf ["e"; "E"]%char c then
        match r with
        | c' :: r' => if oneOf ["+"; "-"]%char c' then digits1 r' else digits1 r
        | [] => None
        end
      else frac
  | _ => frac
  end.

(** The rest of a string, after its opening quote. *)
Fixpoint stringBody (s : list ascii) : option (list ascii) :=
  match s with
  | [] => None
  | c :: r =>
      if Ascii.eqb c quote then Some r
      else if Ascii.eqb c backslash then
        match r with
        | e :: r' =>
            if oneOf [quote; backslash; "/"; "b"; "f"; "n"; "r"; "t"]%char e
            then stringBody r'
            else if Ascii.eqb e "u" then
              match r' with
              | h1 :: h2 :: h3 :: h4 :: r'' =>
                  if forallb isHexDigit [h1; h2; h3; h4] then stringBody r''
                  else None
              | _ => None
              end
            else None
        | [] => None
        end
      else if (Pattern.code c <? 32)%N then None
      else stringBody r
  end.

Fixpoint literal (lit s : list ascii) : option (list ascii) :=
  match lit, s with
  | [], _ => Some s
  | l :: lit', c :: r => if Ascii.eqb l c then literal lit' r else None
  | _ :: _, [] => None
  end.

Section Compound.

Variable value : list ascii -> option (list ascii).

(** Values separated by commas up to the closing bracket. *)
Fixpoint elements (n : nat) (s : list ascii) : option (list ascii) :=
  match n with
  | O => None
  | S n' =>
      match value s with
      | Some r =>
          match skipWs r with
          | c :: r' =>
              if Ascii.eqb c "," then elements n' r'
              else if Ascii.eqb c "]" then Some r'
              else None
          | [] => None
          end
      | None => None
      end
  end.

(** Members [string : value] separated by commas up to the closing
    brace. *)
Fixpoint members (n : nat) (s : list ascii) : option (list ascii) :=
  match n with
  | O => None
  | S n' =>
      match skipWs s with
      | q :: r =>
          if Ascii.eqb q quote then
            match option_map skipWs (stringBody r) with
            | Some (c :: r1) =>
                if Ascii.eqb c ":" then
                  match option_map skipWs (value r1) with
                  | Some (c' :: r2) =>
                      if Ascii.eqb c' "," then members n' r2
                      else if Ascii.eqb c' "}" then Some r2
                      else None
                  | _ => None
                  end
                else None
            | _ => None
            end
          else None
      | [] => None
      end
  end.

End Compound.

Fixpoint value (fuel : nat) (s : list ascii) : option (list ascii) :=
  match fuel with
  | O => None
  | S fuel' =>
      match skipWs s with
      | [] => None
      | c :: r =>
          if Ascii.eqb c "{" then
            match skipWs r with
            | c' :: r' =>
                if Ascii.eqb c' "}" then Some r' else members (value fuel') fuel' r
            | [] => None
            end
          else if Ascii.eqb c "[" then
            match skipWs r with
            | c' :: r' =>
                if Ascii.eqb c' "]" then Some r' else elements (value fuel') fuel' r
            | [] => None
            end
          else if Ascii.eqb c quote then stringBody r
          else if Ascii.eqb c "t" then literal (list_ascii_of_string "rue") r
          else if Ascii.eqb c "f" then literal (list_ascii_of_string "alse") r
          else if Ascii.eqb c "n" then literal (list_ascii_of_string "ull") r
          else number (c :: r)
      end
  end.

(** A JSON text is one value with nothing but white space around it. *)
Definition valid (s : string) : bool :=
  let cs := list_ascii_of_string s in
  match option_map skipWs (value (S (length cs)) cs) with
  | Some [] => true
  | _ => false
  end.

(** [JSON.parse], for its verdict. *)
Definition parse (s : string) : Result unit :=
  if valid s then Ok tt else Throw (SyntaxError "Unexpected token in JSON").

End Json.

(** ** Fixtures for the examples *)

Module Fixture.

(** Agrees with the URL constructor on the inputs of the examples: a
    target made of a path and a query, resolved against an origin; an
    origin with no host is rejected. *)
Definition newURL (input base : string) : option string :=
  if String.eqb base "http://" || String.eqb base "https://" then None
  else
    match input with
    | String "/" _ => Some (base +:+ input)
    | _ => Some (base +:+ "/" +:+ input)
    end.

(** Stand-ins for the two serializers: the request line, and the status
    with the body. *)
Definition processRequest
    (req : IncomingMessage.t) (body : option string) (_ : option LogOptions.t)
    : Result (string * string) :=
  Ok (IncomingMessage.method req, IncomingMessage.url req).

Definition processResponse
    (status : Z) (body : option string) (_ : option LogOptions.t)
    : Result (Z * option string) :=
  Ok (status, body).

Definition runtime : Runtime :=
  {| packageVersion := "5.0.0";
     osArch := "x64";
     osPlatform := "darwin";
     osRelease := "21.3.0";
     nodeVersion := "14.19.3" |}.

Definition req : IncomingMessage.t :=
  {| IncomingMessage.url := "/users/1?page=2";
     IncomingMessage.method := "GET";
     IncomingMessage.httpVersion := "1.1";
     IncomingMessage.headers := {[ "host"%string := "localhost:8000"%string ]};
     IncomingMessage.socket :=
       {| IncomingMessage.encrypted := None;
          IncomingMessage.remoteAddress := Some "127.0.0.1"%string |} |}.

Definition logOptions : LogOptions.t :=
  {| LogOptions.denylist := None;
     LogOptions.blacklist := None;
     LogOptions.allowlist := None;
     LogOptions.whitelist := None;
     LogOptions.development := Some true;
     LogOptions.fireAndForget := None |}.

(** A request that started at 2022-06-30T10:21:55.394Z. *)
Definition started : Z := 1656584515394.

Definition payloadData (key : string) (logId routePath : option string)
    (startedAt endedAt : Z) : PayloadData.t string :=
  {| PayloadData.apiKey := key;
     PayloadData.label := Some "Owlbert"%string;
     PayloadData.email := Some "owlbert@example.com"%string;
     PayloadData.startedDateTime := Date.ofNumber (Js.Num startedAt);
     PayloadData.responseEndDateTime := Date.ofNumber (Js.Num endedAt);
     PayloadData.logId := logId;
     PayloadData.routePath := routePath;
     PayloadData.requestBody := None;
     PayloadData.responseBody := Some "ok"%string |}.

Definition rnds : Uuid.Entropy := fun i => Byte.x5a.

(** Splits [a=1&b=2] into its pairs; enough for bodies that need no
    percent-decoding. *)
Fixpoint splitOn (sep : ascii) (s : string) : list string :=
  match s with
  | EmptyString => [EmptyString]
  | String c s' =>
      if Ascii.eqb c sep then EmptyString :: splitOn sep s'
      else
        match splitOn sep s' with
        | piece :: pieces => String c piece :: pieces
        | [] => [String c EmptyString]
        end
  end.

Definition decodeUrlForm (body : string) : list FieldFilter.Field :=
  map (fun pair =>
         match splitOn "=" pair with
         | n :: v :: _ => FieldFilter.mkField n v None None
         | n :: [] => FieldFilter.mkField n "" None None
         | [] => FieldFilter.mkField "" "" None None
         end)
      (splitOn "&" body).

(** A multipart decoder that finds no part. *)
Definition decodeMultipart (contentType body : string) : list FieldFilter.Field := [].

Definition classify :=
  BodyClassifier.classify Json.parse decodeUrlForm decodeMultipart.

(** The JSON text of an object holding a user with an email address. *)
Definition userJson : string :=
  let q := String Json.quote EmptyString in
  ("{" +:+ q +:+ "user" +:+ q +:+ ":{" +:+ q +:+ "email" +:+ q +:+ ":" +:+
   q +:+ "a@b.com" +:+ q +:+ "}}")%string.

Definition construct :=
  constructPayload newURL processRequest processResponse runtime rnds req 200.

End Fixture.

(** ** The patterns of the integration test

    The test suite checks a payload's [_id] and [startedDateTime] with two
    regular expressions. Both are sequences of character sets, one anchored
    at both ends, one searched for anywhere in the text. *)

Module Regex.

(** A character set, by the characters it accepts. *)
Definition CharSet : Type := ascii -> bool.

Definition range (lo hi : ascii) : CharSet :=
  fun c => ((N_of_ascii lo <=? N_of_ascii c) && (N_of_ascii c <=? N_of_ascii hi))%N.

Definition lit (c : ascii) : CharSet := Ascii.eqb c.

Definition anyOf (cs : string) : CharSet :=
  fun c => existsb (Ascii.eqb c) (list_ascii_of_string cs).

(** [\d] *)
Definition digit : CharSet := range "0" "9".

(** [[0-9a-f]] under the flag [i] *)
Definition hexI : CharSet :=
  fun c => digit c || range "a" "f" c || range "A" "F" c.

(** [.]: anything but a line terminator. *)
Definition dot : CharSet :=
  fun c => negb (Ascii.eqb c "010" || Ascii.eqb c "013").

(** The sequence matches at the start of the text. *)
Fixpoint matchesPrefix (p : list CharSet) (s : string) : bool :=
  match p with
  | [] => true
  | k :: p' =>
      match s with
      | String c s' => k c && matchesPrefix p' s'
      | EmptyString => false
      end
  end.

(** [^p$]: the sequence matches the whole text. *)
Fixpoint matchesAll (p : list CharSet) (s : string) : bool :=
  match p, s with
  | [], EmptyString => true
  | k :: p', String c s' => k c && matchesAll p' s'
  | _, _ => false
  end.

(** [p], unanchored: the sequence matches somewhere in the text. *)
Fixpoint search (p : list CharSet) (s : string) : bool :=
  matchesPrefix p s ||
  match s with
  | String _ s' => search p s'
  | EmptyString => false
  end.

(** A character set covers a class of a shape when it accepts every
    character of the class. *)
Definition covers (k : Pattern.Class) (f : CharSet) : Prop :=
  forall c, Pattern.inClass k c = true -> f c = true.

(** [/^[0-9a-f]{8}-[0-9a-f]{4}-[0-5][0-9a-f]{3}-[089ab][0-9a-f]{3}-[0-9a-f]{12}$/i],
    the test's pattern for [payload._id]. *)
Definition uuid : list CharSet :=
  repeat hexI 8 ++ [lit "-"] ++ repeat hexI 4 ++ [lit "-"] ++
  range "0" "5" :: repeat hexI 3 ++ [lit "-"] ++
  anyOf "089abAB" :: repeat hexI 3 ++ [lit "-"] ++ repeat hexI 12.

Definition testUuid (s : string) : bool := matchesAll uuid s.

(** [\d{4}-\d{2}-\d{2}T\d{2}:\d{2}:\d{2}], the part of the test's pattern
    for [startedDateTime] before the optional fraction. *)
Definition dateTime : list CharSet :=
  repeat digit 4 ++ [lit "-"] ++ repeat digit 2 ++ [lit "-"] ++
  repeat digit 2 ++ [lit "T"] ++ repeat digit 2 ++ [lit ":"] ++
  repeat digit 2 ++ [lit ":"] ++ repeat digit 2.

(** [/\d{4}-\d{2}-\d{2}T\d{2}:\d{2}:\d{2}(?:.\d{3})?Z/]: found somewhere,
    with the optional group or without it. *)
Definition testStartedDateTime (s : string) : bool :=
  search (dateTime ++ dot :: repeat digit 3 ++ [lit "Z"]) s
  || search (dateTime ++ [lit "Z"]) s.

End Regex.

(** ** Plain objects

    An object whose values are strings, as the own properties it holds in
    the order they were created. *)

Module JsObject.

Definition t : Type := list (string * string).

(** The value of an own property. *)
Fixpoint getOwn (o : t) (k : string) : option string :=
  match o with
  | [] => None
  | (k', v) :: o' => if String.eqb k' k then Some v else getOwn o' k
  end.

(** Overwrites an own property where it stands, or creates it last. *)
Fixpoint define (o : t) (k v : string) : t :=
  match o with
  | [] => [(k, v)]
  | (k', v') :: o' =>
      if String.eqb k' k then (k, v) :: o' else (k', v') :: define o' k v
  end.

(** [o[k] = v] on an object that inherits from [Object.prototype]: the
    key [__proto__] reaches the inherited setter, which ignores a string;
    any other key becomes, or stays, an own property. *)
Definition set (o : t) (k v : string) : t :=
  if String.eqb k "__proto__" then o else define o k v.

Definition digitsToN (s : string) : N :=
  fold_left (fun acc c => acc * 10 + (N_of_ascii c - 48))%N
    (list_ascii_of_string s) 0%N.

(** The array index a key spells, if any: a decimal numeral with no
    leading zero, below [2^32 - 1]. *)
Definition arrayIndex (k : string) : option N :=
  match k with
  | EmptyString => None
  | String c rest =>
      if forallb Pattern.isDigit (list_ascii_of_string k)
         && (negb (Ascii.eqb c "0") || String.eqb rest "")
      then
        if (digitsToN k <=? 4294967294)%N then Some (digitsToN k) else None
      else None
  end.

Fixpoint insertByIndex (x : N * string) (l : list (N * string))
    : list (N * string) :=
  match l with
  | [] => [x]
  | y :: l' => if (fst x <=? fst y)%N then x :: l else y :: insertByIndex x l'
  end.

Definition indexKeys (o : t) : list (N * string) :=
  flat_map (fun kv => match arrayIndex (fst kv) with
                      | Some i => [(i, fst kv)]
                      | None => []
                      end) o.


(** [Object.keys(o)]: the array indices in ascending order, then the other
    keys in the order of their creation. *)
Definition ownKeys (o : t) : list string :=
  map snd (fold_right insertByIndex [] (indexKeys o)) ++
  List.filter (fun k => match arrayIndex k with Some _ => false | None => true end)
         (map fst o).

(** [Object.assign(target, source)] *)
Definition assign (target source : t) : t :=
  fold_left (fun tgt k => match getOwn source k with
                          | Some v => set tgt k v
                          | None => tgt
                          end)
            (ownKeys source) target.

End JsObject.

Module JsString.

Fixpoint drop (n : nat) (s : string) : string :=
  match n, s with
  | O, _ => s
  | S n', String _ s' => drop n' s'
  | S _, EmptyString => EmptyString
  end.

(** [s.replace(pattern, '')] with a string for pattern: the first
    occurrence of the pattern is removed, and nothing if there is none. *)
Fixpoint replace (pattern s : string) : string :=
  if String.prefix pattern s then drop (String.length pattern) s
  else
    match s with
    | EmptyString => EmptyString
    | String c s' => String c (replace pattern s')
    end.

End JsString.

(** ** The assertions of the test helpers *)

(** An entry of a HAR [headers] array. *)
Module NameValue.
Record t : Type := mk
  { name : string;
    value : string }.
End NameValue.

(** [array.reduce((prev, next) => Object.assign(prev, { [next.name]: next.value }), {})] *)
Definition arrayToObject (array : list NameValue.t) : JsObject.t :=
  fold_left
    (fun prev next =>
       JsObject.assign prev [(NameValue.name next, NameValue.value next)])
    array [].

(** What a failed chai assertion throws. *)
Definition assertionError (message : string) : JsError :=
  Thrown ("AssertionError: " +:+ message).

Section ChaiPlugins.

(** [String.prototype.toLowerCase]. *)
Variable toLowerCase : string -> string.

(** Regular expressions without the flags [g] and [y], and whether
    [re.exec(text)] finds a match. *)
Variable RegExp : Type.
Variable exec : RegExp -> string -> bool.

(** [isValidUUIDV4] of the package [is-valid-uuid-v4]. *)
Variable isValidUUIDV4 : string -> bool.

(** [caseless(dict).get(name)]: the value under the last of the object's
    keys that equals the name once both are lower-cased. *)
Definition caselessGet (dict : JsObject.t) (name : string) : option string :=
  fold_left
    (fun result key =>
       if String.eqb (toLowerCase key) (toLowerCase name)
       then JsObject.getOwn dict key else result)
    (JsObject.ownKeys dict) None.

(** The documented shapes of [expected]: a regular expression, an array of
    strings, or a string. *)
Inductive Expected : Type :=
  | ERegExp (re : RegExp)
  | EArray (values : list string)
  | EString (value : string).

(** [actual === expected] for a [string | undefined] and a string. *)
Definition strictEquals (actual : option string) (expected : string) : bool :=
  match actual with
  | Some s => String.eqb s expected
  | None => false
  end.

Definition assert (holds : bool) (message : string) : Result unit :=
  if holds then Ok tt else Throw (assertionError message).

(** [expect(headers).to.have.header(header, expected)]: [to.match] tests
    the expression against the actual value as a string, [to.oneOf] and
    [to.equal] compare strictly. The messages of the failures are
    shortened: chai's quote the actual and the expected value. *)
Definition header (obj : list NameValue.t) (header : string)
    (expected : Expected) : Result unit :=
  let headers := arrayToObject obj in
  let actual := caselessGet headers header in
  match expected with
  | ERegExp re =>
      assert (exec re (Js.interpolate actual)) "expected value to match"
  | EArray values =>
      assert (existsb (strictEquals actual) values) "expected value to be one of"
  | EString value =>
      assert (strictEquals actual value) "expected values to be equal"
  end.

(** [expect(headers).to.have.a.documentationHeader(baseLogUrl)] *)
Definition documentationHeader (headers : gmap string string)
    (baseLogUrl : string) : Result unit :=
  match headers !! "x-documentation-url"%string with
  | None => Throw (assertionError "expected undefined not to be undefined")
  | Some url =>
      assert (isValidUUIDV4 (JsString.replace (baseLogUrl +:+ "/logs/") url))
             "expected false to be true"
  end.

End ChaiPlugins.

(** ** Waiting for the server under test *)

Module Net.

(** How a connection attempt ends: with the [connect] event, or with the
    [error] event and the error's code. *)
Inductive Outcome : Type :=
  | Connect
  | Error (code : string).

Definition refused (o : Outcome) : bool :=
  match o with
  | Error code => String.eqb code "ECONNREFUSED"
  | Connect => false
  end.

End Net.

Module Listening.

(** How the wait ends: the promise resolves; it rejects with
    [Cannot connect on port: <port>]; or an error other than a refusal is
    rethrown from the [error] listener, outside the promise, which is then
    never settled. *)
Inductive End : Type :=
  | Resolved
  | CannotConnect (port : Z)
  | Rethrown (code : string)
  | OutOfBudget.

(** The end, the number of sockets opened and the milliseconds spent in
    timers. *)
Record t : Type := mk
  { ending : End;
    connections : nat;
    timers : Z }.

Definition after (sockets : nat) (delay : Z) (w : t) : t :=
  mk (ending w) (sockets + connections w) (delay + timers w).

End Listening.

(** [isListening(port, attempt)], with the outcome of the connection made
    at each attempt for oracle. [port] is a port number, from 0 to 65535,
    as the test's [PORT] is: [net.connect] throwing on any other is not
    modelled. [budget] bounds the recursion and is never used up, see
    [isListeningWithin_bounds]. *)
Fixpoint isListeningWithin (budget : nat) (port : Z) (attempt : nat)
    (net : nat -> Net.Outcome) : Listening.t :=
  if (5 <? attempt)%nat then Listening.mk (Listening.CannotConnect port) 0 0
  else
    match budget with
    | O => Listening.mk Listening.OutOfBudget 0 0
    | S budget' =>
        match net attempt with
        | Net.Connect => Listening.mk Listening.Resolved 1 500
        | Net.Error code =>
            if String.eqb code "ECONNREFUSED"
            then Listening.after 1 (300 * Z.of_nat attempt)
                   (isListeningWithin budget' port (S attempt) net)
            else Listening.mk (Listening.Rethrown code) 1 0
        end
    end.

Definition isListening (port : Z) (attempt : nat) (net : nat -> Net.Outcome)
    : Listening.t :=
  isListeningWithin (6 - attempt) port attempt net.

(** ** More fixtures *)

Module Fixture2.

(** Agrees with [toLowerCase] on ASCII text. *)
Definition lowerChar (c : ascii) : ascii :=
  if Regex.range "A" "Z" c then ascii_of_N (N_of_ascii c + 32) else c.

Fixpoint toLowerCase (s : string) : string :=
  match s with
  | EmptyString => EmptyString
  | String c s' => String (lowerChar c) (toLowerCase s')
  end.

(** A checker of version-4 UUIDs for the examples, in either letter
    case: eight, four, four, four and twelve hexadecimal digits between
    dashes, the third group starting with [4] and the fourth with one of
    [8], [9], [a], [b]. *)
Definition uuidV4 : list Regex.CharSet :=
  repeat Regex.hexI 8 ++ [Regex.lit "-"] ++ repeat Regex.hexI 4 ++
  [Regex.lit "-"] ++ Regex.lit "4" :: repeat Regex.hexI 3 ++
  [Regex.lit "-"] ++ Regex.anyOf "89abAB" :: repeat Regex.hexI 3 ++
  [Regex.lit "-"] ++ repeat Regex.hexI 12.

Definition isValidUUIDV4 (s : string) : bool := Regex.matchesAll uuidV4 s.

Definition header :=
  header toLowerCase (list Regex.CharSet) Regex.search.

Definition documentationHeader := documentationHeader isValidUUIDV4.

(** A server that refuses the first [n] connections and accepts the
    next. *)
Definition refusing (n : nat) : nat -> Net.Outcome :=
  fun attempt =>
    if (attempt <? n)%nat then Net.Error "ECONNREFUSED" else Net.Connect.

End Fixture2.

(** ** Reading a timestamp back

    The inverse of [toISOString]: the date-time string format of
    ECMAScript, as [Date.parse] reads it. *)

Module IsoParse.

(** The time value of calendar fields (ECMAScript's [MakeDay], [MakeTime]
    and [MakeDate]). *)
Definition timeOfFields (f : Date.Fields) : Z :=
  (Date.dayFromYear (Date.year f)
   + Date.daysBeforeMonth (Date.isLeap (Date.year f)) (Date.month f)
   + (Date.day f - 1)) * Date.msPerDay
  + Date.hours f * 3600000 + Date.minutes f * 60000
  + Date.seconds f * 1000 + Date.millis f.

(** Reads [w] digits, most significant first, onto [acc]. *)
Fixpoint readDigits (w : nat) (acc : Z) (s : string) : option (Z * string) :=
  match w with
  | O => Some (acc, s)
  | S w' =>
      match s with
      | String c s' =>
          if Pattern.isDigit c
          then readDigits w' (acc * 10 + Date.digitValue c) s'
          else None
      | EmptyString => None
      end
  end.

Definition expect (c : ascii) (s : string) : option string :=
  match s with
  | String c' s' => if Ascii.eqb c c' then Some s' else None
  | EmptyString => None
  end.

(** Four digits, or a sign and six digits. *)
Definition readYear (s : string) : option (Z * string) :=
  match s with
  | String c s' =>
      if Ascii.eqb c "+" then readDigits 6 0 s'
      else if Ascii.eqb c "-" then
        '(y, rest) ← readDigits 6 0 s'; Some (- y, rest)
      else readDigits 4 0 s
  | EmptyString => None
  end.

Definition parseFields (s : string) : option Date.Fields :=
  '(year, s) ← readYear s;
  s ← expect "-" s;
  '(month, s) ← readDigits 2 0 s;
  s ← expect "-" s;
  '(day, s) ← readDigits 2 0 s;
  s ← expect "T" s;
  '(hours, s) ← readDigits 2 0 s;
  s ← expect ":" s;
  '(minutes, s) ← readDigits 2 0 s;
  s ← expect ":" s;
  '(seconds, s) ← readDigits 2 0 s;
  s ← expect "." s;
  '(millis, s) ← readDigits 3 0 s;
  s ← expect "Z" s;
  if String.eqb s "" then
    Some (Date.mkFields year month day hours minutes seconds millis)
  else None.

(** The time value a timestamp stands for. *)
Definition parse (s : string) : option Z :=
  timeOfFields <$> parseFields s.

End IsoParse.

(** * Properties *)

(** ** Patterns *)

Section PatternFacts.

Import Pattern.

Lemma matches_cons (k : Class) (p : list Class) (c : ascii) (s : string) :
  matches (k :: p) (String c s) = inClass k c && matches p s.
Proof. reflexivity. Qed.

(** A literal prefix consumes itself. *)
Lemma matches_lits (l : string) (p : list Class) (s : string) :
  matches (lits l ++ p) (l +:+ s) = matches p s.
Proof.
  induction l as [|c l IH]; [reflexivity|].
  change (inClass (Lit c) c && matches (lits l ++ p) (l +:+ s) = matches p s).
  simpl. rewrite Ascii.eqb_refl. exact IH.
Qed.

Lemma isDigit_digitChar (d : Z) :
  0 <= d < 10 -> isDigit (Date.digitChar d) = true.
Proof.
  intros H.
  assert (d = 0 \/ d = 1 \/ d = 2 \/ d = 3 \/ d = 4 \/
          d = 5 \/ d = 6 \/ d = 7 \/ d = 8 \/ d = 9) as Hd by lia.
  repeat (destruct Hd as [-> | Hd]; [reflexivity|]).
  subst d. reflexivity.
Qed.

(** Padded digits are digits, whatever the number. *)
Lemma matches_padDigits (w : nat) (n : Z) (p : list Class) (s : string) :
  matches (repeat Digit w ++ p) (Date.padDigits w n +:+ s) = matches p s.
Proof.
  induction w as [|w IH]; [reflexivity|].
  change (inClass Digit (Date.digitChar ((n / 10 ^ Z.of_nat w) mod 10))
          && matches (repeat Digit w ++ p) (Date.padDigits w n +:+ s)
          = matches p s).
  simpl inClass. rewrite isDigit_digitChar by (apply Z.mod_pos_bound; lia).
  exact IH.
Qed.

Lemma isHex_hexChar (n : N) : isHex (Uuid.hexChar n) = true.
Proof.
  unfold Uuid.hexChar. generalize (N.to_nat n) as i. intros i.
  do 16 (destruct i as [|i]; [reflexivity|]).
  destruct i; reflexivity.
Qed.

Lemma matches_byteToHex (n : N) (p : list Class) (s : string) :
  matches (Hex :: Hex :: p) (Uuid.byteToHex n s) = matches p s.
Proof.
  unfold Uuid.byteToHex. rewrite !matches_cons. simpl inClass.
  now rewrite !isHex_hexChar.
Qed.

End PatternFacts.

(** ** uuid *)

Section UuidFacts.

Import Pattern.

(** The seventh byte prints its version nibble as 4. *)
Lemma version_nibble (b : byte) :
  Uuid.hexChar (N.lor (N.land (Byte.to_N b) 15) 64 / 16) = "4"%char.
Proof. destruct b; reflexivity. Qed.

(** The ninth byte prints its high nibble as 8, 9, a or b. *)
Lemma variant_nibble (b : byte) :
  inClass Variant (Uuid.hexChar (N.lor (N.land (Byte.to_N b) 63) 128 / 16)) = true.
Proof. destruct b; reflexivity. Qed.

Lemma matches_version_byte (rnds : Uuid.Entropy) (p : list Class) (s : string) :
  matches (Lit "4" :: Hex :: p) (Uuid.byteToHex (Uuid.stamped rnds 6) s)
  = matches p s.
Proof.
  unfold Uuid.byteToHex, Uuid.stamped. rewrite !matches_cons.
  rewrite version_nibble. simpl inClass. now rewrite isHex_hexChar.
Qed.

Lemma matches_variant_byte (rnds : Uuid.Entropy) (p : list Class) (s : string) :
  matches (Variant :: Hex :: p) (Uuid.byteToHex (Uuid.stamped rnds 8) s)
  = matches p s.
Proof.
  unfold Uuid.byteToHex, Uuid.stamped. rewrite !matches_cons.
  rewrite variant_nibble. simpl (inClass Hex _). now rewrite isHex_hexChar.
Qed.

(** Whatever the random bytes, [v4] prints a version-4 identifier. *)
Lemma v4_isUuidV4 (rnds : Uuid.Entropy) : isUuidV4 (Uuid.v4 rnds) = true.
Proof.
  unfold isUuidV4, Uuid.v4, Uuid.stringify.
  change uuidV4 with
    (Hex :: Hex :: Hex :: Hex :: Hex :: Hex :: Hex :: Hex :: Lit "-" ::
     Hex :: Hex :: Hex :: Hex :: Lit "-" ::
     Lit "4" :: Hex :: Hex :: Hex :: Lit "-" ::
     Variant :: Hex :: Hex :: Hex :: Lit "-" ::
     Hex :: Hex :: Hex :: Hex :: Hex :: Hex ::
     Hex :: Hex :: Hex :: Hex :: Hex :: Hex :: []).
  repeat first
    [ rewrite matches_byteToHex
    | rewrite matches_version_byte
    | rewrite matches_variant_byte
    | rewrite matches_cons; simpl (inClass (Lit _) _) ].
  reflexivity.
Qed.

Lemma v4_not_empty (rnds : Uuid.Entropy) : Uuid.v4 rnds <> ""%string.
Proof. unfold Uuid.v4, Uuid.stringify, Uuid.byteToHex. discriminate. Qed.

End UuidFacts.

(** ** Dates *)

Section DateFacts.

Import Pattern.

Lemma yearString_shape (y : Z) (p : list Class) (s : string) :
  matches (repeat Digit 4 ++ p) (Date.yearString y +:+ s) = matches p s \/
  matches (Sign :: repeat Digit 6 ++ p) (Date.yearString y +:+ s) = matches p s.
Proof.
  unfold Date.yearString.
  destruct ((0 <=? y) && (y <=? 9999)).
  - left. apply matches_padDigits.
  - right.
    change (inClass Sign (if y <? 0 then "-"%char else "+"%char)
            && matches (repeat Digit 6 ++ p)
                 (Date.padDigits 6 (Z.abs y) +:+ s) = matches p s).
    rewrite matches_padDigits. now destruct (y <? 0).
Qed.

(** Every formatted date has the shape of an ISO-8601 UTC date-time with
    three fractional digits. *)
Lemma formatFields_shape (f : Date.Fields) :
  isIsoUtcMillis (Date.formatFields f) = true.
Proof.
  unfold isIsoUtcMillis, Date.formatFields.
  set (tailP := lits "-" ++ repeat Digit 2 ++ lits "-" ++
             repeat Digit 2 ++ lits "T" ++ repeat Digit 2 ++ lits ":" ++
             repeat Digit 2 ++ lits ":" ++ repeat Digit 2 ++ lits "." ++
             repeat Digit 3 ++ lits "Z").
  set (tailS := ("-" +:+ Date.padDigits 2 (Date.month f) +:+ "-" +:+
       Date.padDigits 2 (Date.day f) +:+ "T" +:+
       Date.padDigits 2 (Date.hours f) +:+ ":" +:+
       Date.padDigits 2 (Date.minutes f) +:+ ":" +:+
       Date.padDigits 2 (Date.seconds f) +:+ "." +:+
       Date.padDigits 3 (Date.millis f) +:+ "Z")%string).
  assert (matches tailP tailS = true) as Htail.
  { subst tailP tailS.
    repeat first [rewrite matches_lits | rewrite matches_padDigits].
    rewrite <- (app_nil_r (lits "Z")).
    change "Z"%string with ("Z" +:+ "")%string.
    now rewrite matches_lits. }
  apply orb_true_iff.
  destruct (yearString_shape (Date.year f) tailP tailS) as [H | H].
  - left. change isoDate with (repeat Digit 4 ++ tailP). now rewrite H.
  - right.
    change isoDateExpanded with (Sign :: repeat Digit 6 ++ tailP).
    now rewrite H.
Qed.

(** [toISOString] returns for every valid date, and what it returns has the
    ISO shape. *)
Lemma toISOString_shape (d : Date.t) (s : string) :
  Date.toISOString d = Ok s -> isIsoUtcMillis s = true.
Proof.
  unfold Date.toISOString. destruct (Date.timeValue d); [|discriminate].
  intros [= <-]. apply formatFields_shape.
Qed.

End DateFacts.

(** ** The calendar *)

(** Replaces every entry of the month table by its value. *)
Ltac month_table :=
  repeat match goal with
    | H : context [Date.daysBeforeMonth ?l ?m] |- _ =>
        let v := eval vm_compute in (Date.daysBeforeMonth l m) in
        change (Date.daysBeforeMonth l m) with v in H
    | |- context [Date.daysBeforeMonth ?l ?m] =>
        let v := eval vm_compute in (Date.daysBeforeMonth l m) in
        change (Date.daysBeforeMonth l m) with v
    end.

Section CalendarFacts.

Lemma dayFromYear_succ (y : Z) :
  Date.dayFromYear (y + 1)
  = Date.dayFromYear y + 365 + (if Date.isLeap y then 1 else 0).
Proof.
  unfold Date.dayFromYear, Date.isLeap.
  destruct (y mod 4 =? 0) eqn:E4; destruct (y mod 100 =? 0) eqn:E100;
    destruct (y mod 400 =? 0) eqn:E400; simpl;
    rewrite ?Z.eqb_eq, ?Z.eqb_neq in *; Z.div_mod_to_equations; lia.
Qed.

(** January 1st of the year after the [yoe]-th year of an era. *)
Lemma dayFromYear_era (era yoe : Z) :
  0 <= yoe <= 399 ->
  Date.dayFromYear (yoe + era * 400 + 1)
  = 146097 * era + 365 * yoe + yoe / 4 - yoe / 100 - 719468 + 306.
Proof. intros H. unfold Date.dayFromYear. Z.div_mod_to_equations. lia. Qed.

(** The last day of a March-based year only exists before a leap
    February. *)
Lemma leap_of_last_day (era yoe : Z) :
  0 <= yoe <= 399 ->
  (yoe mod 4 = 3 /\ (yoe mod 100 <> 99 \/ yoe = 399)) ->
  Date.isLeap (yoe + era * 400 + 1) = true.
Proof.
  intros Hyoe H. unfold Date.isLeap.
  assert ((yoe + era * 400 + 1) mod 4 = 0) as -> by (Z.div_mod_to_equations; lia).
  destruct ((yoe + era * 400 + 1) mod 100 =? 0) eqn:E100; [|reflexivity].
  apply Z.eqb_eq in E100.
  assert ((yoe + era * 400 + 1) mod 400 = 0) as ->
    by (Z.div_mod_to_equations; lia).
  reflexivity.
Qed.

(** [civilFromDays] agrees with ECMAScript's day arithmetic: the year is
    the one whose January 1st is the latest not after the day, the month
    is the one the day within the year falls in, and the day of the month
    counts from 1. *)
Lemma civilFromDays_spec (days : Z) :
  let '(y, m, d) := Date.civilFromDays days in
  let within := days - Date.dayFromYear y in
  Date.dayFromYear y <= days < Date.dayFromYear (y + 1) /\
  1 <= m <= 12 /\
  Date.daysBeforeMonth (Date.isLeap y) m <= within
    < Date.daysBeforeMonth (Date.isLeap y) (m + 1) /\
  d = within - Date.daysBeforeMonth (Date.isLeap y) m + 1.
Proof.
  unfold Date.civilFromDays.
  set (z := days + 719468).
  set (era := z / 146097).
  set (doe := z mod 146097).
  assert (days = 146097 * era + doe - 719468) as Hdays
    by (pose proof (Z.div_mod z 146097); subst era doe z; lia).
  assert (0 <= doe < 146097) as Hdoe by (apply Z.mod_pos_bound; lia).
  rewrite Hdays. clearbody doe era. clear Hdays z.
  set (yoe := (doe - doe / 1460 + doe / 36524 - doe / 146096) / 365).
  assert (0 <= yoe <= 399) as Hyoe by (subst yoe; Z.div_mod_to_equations; lia).
  set (doy := doe - (365 * yoe + yoe / 4 - yoe / 100)).
  assert (0 <= doy <= 365) as Hdoy
    by (subst doy yoe; Z.div_mod_to_equations; lia).
  assert (doy = 365 -> yoe mod 4 = 3 /\ (yoe mod 100 <> 99 \/ yoe = 399))
    as Hlast by (subst doy yoe; intros; Z.div_mod_to_equations; lia).
  assert (doe = doy + (365 * yoe + yoe / 4 - yoe / 100)) as Hsplit
    by (subst doy; lia).
  clearbody doy. clearbody yoe. subst doe. clear Hdoe.
  pose proof (dayFromYear_era era yoe Hyoe) as HB.
  pose proof (dayFromYear_succ (yoe + era * 400)) as HA.
  pose proof (dayFromYear_succ (yoe + era * 400 + 1)) as HC.
  assert (doy <= 364 + (if Date.isLeap (yoe + era * 400 + 1) then 1 else 0))
    as Hlen.
  { destruct (Z.eq_dec doy 365) as [E | E]; [|destruct (Date.isLeap (yoe + era * 400 + 1)); lia].
    rewrite (leap_of_last_day era yoe Hyoe (Hlast E)). lia. }
  clear Hlast.
  set (mp := (5 * doy + 2) / 153).
  assert (0 <= mp <= 11) as Hmp by (subst mp; Z.div_mod_to_equations; lia).
  assert (153 * mp <= 5 * doy + 2 < 153 * mp + 153) as Hmpdef
    by (subst mp; Z.div_mod_to_equations; lia).
  assert (mp = 0 \/ mp = 1 \/ mp = 2 \/ mp = 3 \/ mp = 4 \/ mp = 5 \/
          mp = 6 \/ mp = 7 \/ mp = 8 \/ mp = 9 \/ mp = 10 \/ mp = 11)
    as Hcases by lia.
  clearbody mp.
  repeat (destruct Hcases as [-> | Hcases]); try subst mp.
  all: repeat match goal with
       | |- context [if ?c then _ else _] =>
           lazymatch c with
           | context [Date.isLeap] => fail
           | _ => let v := eval vm_compute in c in change c with v; cbv iota
           end
       end.
  all: rewrite ?Z.add_0_r.
  all: repeat match goal with
       | |- context [(?a + 2) / 5] =>
           let v := eval vm_compute in ((a + 2) / 5) in
           change ((a + 2) / 5) with v
       end.
  all: cbv zeta; try rewrite Z.add_assoc in HC.
  all: destruct (Date.isLeap (yoe + era * 400));
       destruct (Date.isLeap (yoe + era * 400 + 1)); month_table; lia.
Qed.

(** The calendar fields of a valid date are in their ranges; the year fits
    the six digits of the expanded format. *)
Lemma fieldsOf_ranges (tv : Z) :
  Z.abs tv <= Date.maxTime ->
  let f := Date.fieldsOf tv in
  -271821 <= Date.year f <= 275760 /\
  1 <= Date.month f <= 12 /\ 1 <= Date.day f <= 31 /\
  0 <= Date.hours f < 24 /\ 0 <= Date.minutes f < 60 /\
  0 <= Date.seconds f < 60 /\ 0 <= Date.millis f < 1000.
Proof.
  intros Htv. unfold Date.fieldsOf.
  pose proof (civilFromDays_spec (tv / Date.msPerDay)) as Hspec.
  destruct (Date.civilFromDays (tv / Date.msPerDay)) as [[y m] d].
  cbv zeta in Hspec. destruct Hspec as (Hy & Hm & Hw & Hd).
  cbn [Date.year Date.month Date.day Date.hours Date.minutes Date.seconds
       Date.millis].
  assert (-100000000 <= tv / Date.msPerDay <= 100000000) as Hdays
    by (unfold Date.maxTime, Date.msPerDay in *; Z.div_mod_to_equations; lia).
  repeat split; try (apply Z.mod_pos_bound; lia); try lia.
  - unfold Date.dayFromYear in Hy. Z.div_mod_to_equations. lia.
  - unfold Date.dayFromYear in Hy. Z.div_mod_to_equations. lia.
  - assert (m = 1 \/ m = 2 \/ m = 3 \/ m = 4 \/ m = 5 \/ m = 6 \/ m = 7 \/
            m = 8 \/ m = 9 \/ m = 10 \/ m = 11 \/ m = 12) as Hc by lia.
    repeat (destruct Hc as [-> | Hc]); try subst m;
      destruct (Date.isLeap y); month_table; lia.
Qed.

Lemma ofNumber_wf (v : Js.Number) : Date.wf (Date.ofNumber v).
Proof.
  unfold Date.wf, Date.ofNumber. destruct v as [z|]; [|exact I].
  destruct (Z.leb_spec (Z.abs z) Date.maxTime); [assumption | exact I].
Qed.

(** [toISOString] returns on every valid date, and prints fields that are
    in range. *)
Lemma toISOString_valid (d : Date.t) (tv : Z) :
  Date.wf d -> Date.timeValue d = Js.Num tv ->
  Date.toISOString d = Ok (Date.formatFields (Date.fieldsOf tv)) /\
  -271821 <= Date.year (Date.fieldsOf tv) <= 275760 /\
  1 <= Date.month (Date.fieldsOf tv) <= 12 /\
  1 <= Date.day (Date.fieldsOf tv) <= 31.
Proof.
  unfold Date.wf, Date.toISOString. intros Hwf Htv. rewrite Htv in *.
  split; [reflexivity|].
  pose proof (fieldsOf_ranges tv Hwf) as H. cbv zeta in H. tauto.
Qed.

End CalendarFacts.

(** ** Digits and numbers *)

Section NumberFacts.

Lemma digitValue_digitChar (d : Z) :
  0 <= d < 10 -> Date.digitValue (Date.digitChar d) = d.
Proof.
  intros H.
  assert (d = 0 \/ d = 1 \/ d = 2 \/ d = 3 \/ d = 4 \/
          d = 5 \/ d = 6 \/ d = 7 \/ d = 8 \/ d = 9) as Hd by lia.
  repeat (destruct Hd as [-> | Hd]; [reflexivity|]).
  subst d. reflexivity.
Qed.

Lemma length_padDigits (w : nat) (n : Z) :
  String.length (Date.padDigits w n) = w.
Proof. induction w as [|w IH]; simpl; [reflexivity | now rewrite IH]. Qed.

(** The padded digits spell the number modulo [10^w] ... *)
Lemma digitsValue_padDigits (w : nat) (n : Z) :
  Date.digitsValue (Date.padDigits w n) = n mod 10 ^ Z.of_nat w.
Proof.
  induction w as [|w IH].
  - simpl. now rewrite Z.mod_1_r.
  - cbn [Date.padDigits Date.digitsValue].
    rewrite length_padDigits, IH.
    rewrite digitValue_digitChar by (apply Z.mod_pos_bound; lia).
    rewrite Nat2Z.inj_succ, Z.pow_succ_r by lia.
    assert (0 < 10 ^ Z.of_nat w) as Hpos by (apply Z.pow_pos_nonneg; lia).
    rewrite (Z.mul_comm 10), Z.rem_mul_r by lia. lia.
Qed.

(** ... hence the number itself when it fits the width: no field of a
    valid date is truncated. *)
Lemma padDigits_exact (w : nat) (n : Z) :
  0 <= n < 10 ^ Z.of_nat w ->
  Date.digitsValue (Date.padDigits w n) = n.
Proof. intros H. rewrite digitsValue_padDigits. now apply Z.mod_small. Qed.

Lemma roundDouble_exact (d : Z) :
  Z.abs d <= Js.maxExact -> Js.roundDouble d = d.
Proof.
  intros H. unfold Js.roundDouble.
  now destruct (Z.leb_spec (Z.abs d) Js.maxExact); [|lia].
Qed.

(** Rounding moves an integer by at most one, onto a double. *)
Lemma roundDouble_near (d : Z) :
  Z.abs (Js.roundDouble d - d) <= 1 /\
  (Js.maxExact < Z.abs d -> Js.roundDouble d mod 2 = 0).
Proof.
  unfold Js.roundDouble, Js.maxExact.
  destruct (Z.leb_spec (Z.abs d) (2 ^ 53)); [lia|].
  destruct (Z.even d) eqn:E.
  - apply Z.even_spec in E. destruct E as [k ->].
    split; [lia|]. intros _. now rewrite Z.mul_comm, Z.mod_mul.
  - assert (d mod 2 = 1) as Hodd.
    { rewrite Zmod_even, E. reflexivity. }
    destruct (Z.eqb_spec (d mod 4) 1); split; try lia;
      intros _; Z.div_mod_to_equations; lia.
Qed.

(** Rounding keeps the sign. *)
Lemma roundDouble_sign (d : Z) : (Js.roundDouble d <? 0) = (d <? 0).
Proof.
  unfold Js.roundDouble, Js.maxExact.
  destruct (Z.leb_spec (Z.abs d) (2 ^ 53)); [reflexivity|].
  destruct (Z.even d); [reflexivity|].
  assert (2 ^ 53 = 9007199254740992) as E by reflexivity.
  destruct (d mod 4 =? 1);
    destruct (Z.ltb_spec d 0); destruct (Z.ltb_spec (d - 1) 0);
    destruct (Z.ltb_spec (d + 1) 0); try reflexivity; lia.
Qed.

Lemma sub_isNegative (e s : Z) :
  Js.isNegative (Js.sub (Js.Num e) (Js.Num s)) = (e <? s).
Proof.
  simpl. rewrite roundDouble_sign.
  destruct (Z.ltb_spec (e - s) 0); destruct (Z.ltb_spec e s); reflexivity || lia.
Qed.

Lemma orElse_truthy (a : option string) (b : string) :
  Js.orElse a b = if Js.truthyString a then default b a else b.
Proof.
  destruct a as [s|]; [|reflexivity].
  simpl. now destruct (String.eqb s "").
Qed.

Lemma truthyString_spec (a : option string) :
  Js.truthyString a = true <-> exists s, a = Some s /\ s <> ""%string.
Proof.
  destruct a as [s|]; simpl.
  - destruct (String.eqb_spec s ""); split.
    + discriminate.
    + intros (s' & [= <-] & Hne). contradiction.
    + intros _. now exists s.
    + reflexivity.
  - split; [discriminate | intros (s & [=] & _)].
Qed.

End NumberFacts.

(** ** constructPayload *)

Section ConstructFacts.

Context {Body ServerResponse Req Res : Type}.
Variable newURL : string -> string -> option string.
Variable processRequest :
  IncomingMessage.t -> option Body -> option LogOptions.t -> Result Req.
Variable processResponse :
  ServerResponse -> option string -> option LogOptions.t -> Result Res.
Variable runtime : Runtime.

Variable rnds : Uuid.Entropy.
Variable req : IncomingMessage.t.
Variable res : ServerResponse.
Variable logOptions : option LogOptions.t.

(** A returned payload is the object literal, built from the four
    sub-expressions that may throw. *)
Lemma constructPayload_inv (payloadData : PayloadData.t Body)
    (p : OutgoingLogBody.t Req Res) :
  constructPayload newURL processRequest processResponse runtime
    rnds req res payloadData logOptions = Ok p ->
  exists pageref startedDateTime request response,
    pagerefOf newURL req payloadData = Ok pageref /\
    Date.toISOString (PayloadData.startedDateTime payloadData)
      = Ok startedDateTime /\
    processRequest req (PayloadData.requestBody payloadData) logOptions
      = Ok request /\
    processResponse res (PayloadData.responseBody payloadData) logOptions
      = Ok response /\
    OutgoingLogBody._id p
      = Js.orElse (PayloadData.logId payloadData) (Uuid.v4 rnds) /\
    OutgoingLogBody.group p
      = Group.mk (PayloadData.apiKey payloadData)
          (PayloadData.label payloadData) (PayloadData.email payloadData) /\
    OutgoingLogBody.clientIPAddress p
      = IncomingMessage.remoteAddress (IncomingMessage.socket req) /\
    OutgoingLogBody.development p
      = Js.truthyBool (developmentOption logOptions) /\
    Log.version (Har.log (OutgoingLogBody.request p)) = "1.2"%string /\
    OutgoingLogBody.entries p
      = [ Entry.mk pageref startedDateTime (serverTime payloadData)
            request response tt
            (Timings.mk (Js.Num 0) (serverTime payloadData)) ].
Proof.
  unfold constructPayload, bind.
  destruct (pagerefOf newURL req payloadData) as [pageref|]; [|discriminate].
  destruct (Date.toISOString _) as [started|]; [|discriminate].
  destruct (processRequest _ _ _) as [request|]; [|discriminate].
  destruct (processResponse _ _ _) as [response|]; [|discriminate].
  intros [= <-]. exists pageref, started, request, response.
  repeat split; reflexivity.
Qed.

(** X1. The call returns exactly when none of its four fallible
    sub-expressions throws: the [pageref], [toISOString()] of the start
    date, and the two serializers. *)
Theorem constructPayload_returns_iff_nothing_throws
    (payloadData : PayloadData.t Body) :
  isOk (constructPayload newURL processRequest processResponse runtime
          rnds req res payloadData logOptions)
  = isOk (pagerefOf newURL req payloadData)
    && isOk (Date.toISOString (PayloadData.startedDateTime payloadData))
    && isOk (processRequest req (PayloadData.requestBody payloadData) logOptions)
    && isOk (processResponse res (PayloadData.responseBody payloadData) logOptions).
Proof.
  unfold constructPayload, bind.
  destruct (pagerefOf newURL req payloadData); [|reflexivity].
  destruct (Date.toISOString _); [|reflexivity].
  destruct (processRequest _ _ _); [|reflexivity].
  destruct (processResponse _ _ _); reflexivity.
Qed.

Lemma pagerefOf_spec (payloadData : PayloadData.t Body) :
  pagerefOf newURL req payloadData
  = if Js.truthyString (PayloadData.routePath payloadData)
    then Ok (default ""%string (PayloadData.routePath payloadData))
    else requestURL newURL req.
Proof.
  unfold pagerefOf. destruct (PayloadData.routePath payloadData) as [path|];
    [|reflexivity].
  now destruct (Js.truthyString (Some path)).
Qed.

Lemma requestURL_Ok (href : string) :
  requestURL newURL req = Ok href ->
  newURL (IncomingMessage.url req) (baseURL req) = Some href.
Proof.
  unfold requestURL. destruct (newURL _ _); [|discriminate].
  now intros [= ->].
Qed.

(** C1 (as amended). [constructPayload] does not look at the API key: with
    any other key, the empty string included, the call throws the same
    error or returns the same payload but for [group.id], and a returned
    payload carries the key it was given, verbatim. *)
Theorem constructPayload_apiKey_unchecked
    (payloadData : PayloadData.t Body) (key : string) :
  constructPayload newURL processRequest processResponse runtime
    rnds req res (PayloadData.withApiKey key payloadData) logOptions
  = match constructPayload newURL processRequest processResponse runtime
            rnds req res payloadData logOptions with
    | Ok p => Ok (OutgoingLogBody.withGroupId key p)
    | Throw e => Throw e
    end
  /\ match constructPayload newURL processRequest processResponse runtime
             rnds req res payloadData logOptions with
     | Ok p =>
         Group.id (OutgoingLogBody.group p) = PayloadData.apiKey payloadData
     | Throw _ => True
     end.
Proof.
  unfold constructPayload, bind.
  change (pagerefOf newURL req (PayloadData.withApiKey key payloadData))
    with (pagerefOf newURL req payloadData).
  destruct (pagerefOf newURL req payloadData); [|now split].
  cbn [PayloadData.withApiKey PayloadData.startedDateTime
       PayloadData.requestBody PayloadData.responseBody].
  destruct (Date.toISOString _); [|now split].
  destruct (processRequest _ _ _); [|now split].
  destruct (processResponse _ _ _); [|now split].
  split; reflexivity.
Qed.

(** C2 (as amended). For valid timestamps the entry's [time] is the double
    [responseEndDateTime - startedDateTime] in milliseconds, the exact
    difference whenever that is at most 2^53 in magnitude; nothing clamps
    it: it is negative exactly when the response ended before the request
    started. *)
Theorem time_is_unclamped_difference
    (payloadData : PayloadData.t Body) (p : OutgoingLogBody.t Req Res)
    (s e : Z) :
  Date.getTime (PayloadData.startedDateTime payloadData) = Js.Num s ->
  Date.getTime (PayloadData.responseEndDateTime payloadData) = Js.Num e ->
  constructPayload newURL processRequest processResponse runtime
    rnds req res payloadData logOptions = Ok p ->
  exists entry,
    OutgoingLogBody.entries p = [entry] /\
    Entry.time entry = Js.sub (Js.Num e) (Js.Num s) /\
    (Z.abs (e - s) <= Js.maxExact -> Entry.time entry = Js.Num (e - s)) /\
    Js.isNegative (Entry.time entry) = (e <? s).
Proof.
  intros Hs He Hp.
  destruct (constructPayload_inv _ _ Hp)
    as (pageref & started & request & response & _ & _ & _ & _ & _ & _ & _
        & _ & _ & Hentries).
  eexists. split; [exact Hentries|].
  cbn [Entry.time]. unfold serverTime. rewrite Hs, He.
  split; [reflexivity|]. split.
  - intros Hsmall. simpl. now rewrite roundDouble_exact.
  - apply sub_isNegative.
Qed.

(** C4 (as amended). A non-empty [routePath] is the [pageref], verbatim;
    when [routePath] is absent or the empty string, the [pageref] is the
    URL made of the request's path and query resolved against
    [scheme://host], with the Host header for host and https for scheme
    exactly when the socket is encrypted, http otherwise. *)
Theorem pageref_is_routePath_or_request_url
    (payloadData : PayloadData.t Body) (p : OutgoingLogBody.t Req Res) :
  constructPayload newURL processRequest processResponse runtime
    rnds req res payloadData logOptions = Ok p ->
  exists entry,
    OutgoingLogBody.entries p = [entry] /\
    (forall path, PayloadData.routePath payloadData = Some path ->
       path <> ""%string -> Entry.pageref entry = path) /\
    (PayloadData.routePath payloadData = None \/
     PayloadData.routePath payloadData = Some ""%string ->
       newURL (IncomingMessage.url req)
         (getProto req +:+ "://" +:+
          Js.interpolate (IncomingMessage.headers req !! "host"%string))
       = Some (Entry.pageref entry)) /\
    getProto req
    = match IncomingMessage.encrypted (IncomingMessage.socket req) with
      | Some true => "https"%string
      | _ => "http"%string
      end.
Proof.
  intros Hp.
  destruct (constructPayload_inv _ _ Hp)
    as (pageref & started & request & response & Hpage & _ & _ & _ & _ & _
        & _ & _ & _ & Hentries).
  eexists. split; [exact Hentries|]. cbn [Entry.pageref].
  rewrite pagerefOf_spec in Hpage. repeat split.
  - intros path Hpath Hne. rewrite Hpath in Hpage.
    assert (Js.truthyString (Some path) = true) as Ht
      by (apply truthyString_spec; eauto).
    rewrite Ht in Hpage. now injection Hpage as <-.
  - intros [Hnone | Hempty].
    + rewrite Hnone in Hpage. now apply requestURL_Ok.
    + rewrite Hempty in Hpage. now apply requestURL_Ok.
  - unfold getProto.
    now destruct (IncomingMessage.encrypted (IncomingMessage.socket req))
      as [[|]|].
Qed.

(** C5 (as amended). A non-empty [logId] is the payload's [_id]; when
    [logId] is absent or the empty string, the [_id] is the identifier
    [uuidv4()] generates, a version-4 UUID string. *)
Theorem id_is_logId_or_uuid
    (payloadData : PayloadData.t Body) (p : OutgoingLogBody.t Req Res) :
  constructPayload newURL processRequest processResponse runtime
    rnds req res payloadData logOptions = Ok p ->
  (forall id, PayloadData.logId payloadData = Some id ->
     id <> ""%string -> OutgoingLogBody._id p = id) /\
  (PayloadData.logId payloadData = None \/
   PayloadData.logId payloadData = Some ""%string ->
     OutgoingLogBody._id p = Uuid.v4 rnds /\
     Pattern.isUuidV4 (OutgoingLogBody._id p) = true).
Proof.
  intros Hp.
  destruct (constructPayload_inv _ _ Hp)
    as (pageref & started & request & response & _ & _ & _ & _ & Hid & _).
  rewrite Hid. split.
  - intros id Hsome Hne. rewrite Hsome. simpl.
    destruct (String.eqb_spec id ""); [contradiction | reflexivity].
  - intros [-> | ->]; (split; [reflexivity | apply v4_isUuidV4]).
Qed.

(** C7. In every payload the entry's [startedDateTime] is what
    [toISOString()] prints for the start date: an ISO-8601 date-time with
    exactly three fractional digits of the second and a trailing Z. *)
Theorem startedDateTime_is_iso_utc_millis
    (payloadData : PayloadData.t Body) (p : OutgoingLogBody.t Req Res) :
  constructPayload newURL processRequest processResponse runtime
    rnds req res payloadData logOptions = Ok p ->
  Forall
    (fun entry =>
       Date.toISOString (PayloadData.startedDateTime payloadData)
         = Ok (Entry.startedDateTime entry) /\
       Pattern.isIsoUtcMillis (Entry.startedDateTime entry) = true)
    (OutgoingLogBody.entries p).
Proof.
  intros Hp.
  destruct (constructPayload_inv _ _ Hp)
    as (pageref & started & request & response & _ & Hiso & _ & _ & _ & _
        & _ & _ & _ & Hentries).
  rewrite Hentries. constructor; [|constructor].
  cbn [Entry.startedDateTime]. split; [exact Hiso|].
  exact (toISOString_shape _ _ Hiso).
Qed.

(** C8. An empty [logId] is not used: [logId || uuidv4()] tests
    truthiness, so the payload carries the freshly generated UUID; and
    whatever the caller passes, the [_id] is never the empty string. *)
Theorem empty_logId_is_replaced
    (payloadData : PayloadData.t Body) (p : OutgoingLogBody.t Req Res) :
  constructPayload newURL processRequest processResponse runtime
    rnds req res payloadData logOptions = Ok p ->
  (PayloadData.logId payloadData = Some ""%string ->
     OutgoingLogBody._id p = Uuid.v4 rnds /\
     Pattern.isUuidV4 (OutgoingLogBody._id p) = true) /\
  OutgoingLogBody._id p <> ""%string.
Proof.
  intros Hp.
  destruct (constructPayload_inv _ _ Hp)
    as (pageref & started & request & response & _ & _ & _ & _ & Hid & _).
  rewrite Hid. split.
  - intros ->. split; [reflexivity | apply v4_isUuidV4].
  - destruct (PayloadData.logId payloadData) as [id|]; simpl.
    + destruct (String.eqb_spec id ""); [apply v4_not_empty | assumption].
    + apply v4_not_empty.
Qed.

(** C9. The payload's [development] is a boolean, the truthiness of
    [logOptions?.development]: [true] exactly when the options are there
    with [development] set to [true], and [false] when the option or the
    whole options object is absent. *)
Theorem development_is_boolean_of_option
    (payloadData : PayloadData.t Body) (p : OutgoingLogBody.t Req Res) :
  constructPayload newURL processRequest processResponse runtime
    rnds req res payloadData logOptions = Ok p ->
  (OutgoingLogBody.development p = true <->
     exists o, logOptions = Some o /\ LogOptions.development o = Some true) /\
  (logOptions = None \/
   (exists o, logOptions = Some o /\ LogOptions.development o = None) ->
     OutgoingLogBody.development p = false).
Proof.
  intros Hp.
  destruct (constructPayload_inv _ _ Hp)
    as (pageref & started & request & response & _ & _ & _ & _ & _ & _ & _
        & Hdev & _).
  rewrite Hdev. unfold developmentOption. split.
  - destruct logOptions as [o|]; simpl.
    + destruct (LogOptions.development o) as [[|]|] eqn:E; simpl; split;
        try discriminate; try reflexivity.
      * intros _. now exists o.
      * intros (o' & [= <-] & Ho). congruence.
      * intros (o' & [= <-] & Ho). congruence.
    + split; [discriminate | intros (o & [=] & _)].
  - intros [-> | (o & -> & Ho)]; [reflexivity|]. now rewrite Ho.
Qed.

(** C10. Every payload has the same envelope: the archive's version is
    1.2, it holds exactly one entry, whose [timings.wait] is 0 and whose
    [timings.receive] is the entry's [time]. *)
Theorem envelope_invariant
    (payloadData : PayloadData.t Body) (p : OutgoingLogBody.t Req Res) :
  constructPayload newURL processRequest processResponse runtime
    rnds req res payloadData logOptions = Ok p ->
  Log.version (Har.log (OutgoingLogBody.request p)) = "1.2"%string /\
  exists entry,
    Log.entries (Har.log (OutgoingLogBody.request p)) = [entry] /\
    Timings.wait (Entry.timings entry) = Js.Num 0 /\
    Timings.receive (Entry.timings entry) = Entry.time entry.
Proof.
  intros Hp.
  destruct (constructPayload_inv _ _ Hp)
    as (pageref & started & request & response & _ & _ & _ & _ & _ & _ & _
        & _ & Hversion & Hentries).
  split; [exact Hversion|].
  eexists. split; [exact Hentries|]. split; reflexivity.
Qed.

(** X2. The first sub-expression to throw decides the error: a rejected URL
    before an invalid start date, and an invalid start date, a
    [RangeError], before anything the serializers throw. An invalid end
    date throws nothing. *)
Theorem errors_follow_evaluation_order (payloadData : PayloadData.t Body) :
  (forall e, pagerefOf newURL req payloadData = Throw e ->
     constructPayload newURL processRequest processResponse runtime
       rnds req res payloadData logOptions = Throw e) /\
  (forall pageref,
     pagerefOf newURL req payloadData = Ok pageref ->
     Date.getTime (PayloadData.startedDateTime payloadData) = Js.NaN ->
     constructPayload newURL processRequest processResponse runtime
       rnds req res payloadData logOptions
     = Throw (RangeError "Invalid time value")).
Proof.
  unfold constructPayload, bind, Date.toISOString, Date.getTime. split.
  - now intros e ->.
  - now intros pageref -> ->.
Qed.

End ConstructFacts.

(** ** The field filter *)

Section FilterFacts.

Import FieldFilter.

Variable sentinel : string.

Lemma keeps_allowList (cfg : RedactionConfig) (n : string) :
  allowList cfg ≠ ∅ -> keeps cfg n = bool_decide (n ∈ allowList cfg).
Proof. intros Hne. unfold keeps. now destruct (decide (allowList cfg = ∅)). Qed.

Lemma keeps_denyList (cfg : RedactionConfig) (n : string) :
  allowList cfg = ∅ -> keeps cfg n = negb (bool_decide (n ∈ denyList cfg)).
Proof. intros He. unfold keeps. now destruct (decide (allowList cfg = ∅)). Qed.

(** Filtering substitutes values only: as many fields, in the same order,
    under the same names. *)
Lemma filterFields_shape (cfg : RedactionConfig) (fs : list Field) :
  map name (filterFields sentinel cfg fs) = map name fs /\
  map fileName (filterFields sentinel cfg fs) = map fileName fs /\
  map contentType (filterFields sentinel cfg fs) = map contentType fs.
Proof.
  unfold filterFields. rewrite !map_map.
  repeat split; apply map_ext; intros f; unfold filterField;
    now destruct (keeps cfg (name f)).
Qed.

(** C3. With a non-empty allowList the denyList has no effect: the filter
    gives the same fields whatever the denyList holds, a field keeps its
    value if its name is in the allowList, and its value is replaced by
    the redaction marker if not. *)
Theorem allowList_ignores_denyList
    (deny deny' allow : gset string) (fs : list Field) :
  allow ≠ ∅ ->
  filterFields sentinel (mkConfig deny allow) fs
    = filterFields sentinel (mkConfig deny' allow) fs /\
  (forall n, keeps (mkConfig deny allow) n = true <-> n ∈ allow) /\
  Forall2
    (fun f g =>
       name g = name f /\
       (name f ∈ allow -> value g = value f) /\
       (name f ∉ allow -> value g = sentinel))
    fs (filterFields sentinel (mkConfig deny allow) fs).
Proof.
  intros Hne.
  assert (forall d n, keeps (mkConfig d allow) n = bool_decide (n ∈ allow))
    as Hkeeps by (intros d n; now apply keeps_allowList).
  repeat split.
  - unfold filterFields. apply map_ext. intros f. unfold filterField.
    now rewrite !Hkeeps.
  - rewrite Hkeeps. apply bool_decide_eq_true_1.
  - rewrite Hkeeps. apply bool_decide_eq_true_2.
  - unfold filterFields. induction fs as [|f fs' IH]; constructor; [|exact IH].
    unfold filterField. rewrite Hkeeps.
    destruct (bool_decide_reflect (name f ∈ allow)); cbn [name value];
      repeat split; intros; try reflexivity; contradiction.
Qed.

End FilterFacts.

(** ** The body classifier *)

Section ClassifierFacts.

Import FieldFilter BodyClassifier.

Variable parseJson : string -> Result unit.
Variable decodeUrlForm : string -> list Field.
Variable decodeMultipart : string -> string -> list Field.

Lemma string_prefix_trans (p q s : string) :
  String.prefix p q = true -> String.prefix q s = true ->
  String.prefix p s = true.
Proof.
  revert q s. induction p as [|c p IH]; intros q s Hpq Hqs;
    [now destruct s|].
  destruct q as [|cq q]; [discriminate|].
  destruct s as [|cs s]; [discriminate|].
  simpl in *.
  destruct (ascii_dec c cq) as [-> |]; [|discriminate].
  destruct (ascii_dec cq cs) as [-> |]; [|discriminate].
  now apply (IH q s).
Qed.

Lemma prefix_beforeParameters (s : string) :
  String.prefix (beforeParameters s) s = true.
Proof.
  induction s as [|c s IH]; [reflexivity|].
  simpl. destruct (Ascii.eqb c ";"); [reflexivity|].
  simpl. now destruct (ascii_dec c c).
Qed.

Lemma prefix_trimEnd (s : string) : String.prefix (trimEnd s) s = true.
Proof.
  induction s as [|c s IH]; [reflexivity|].
  cbn [trimEnd]. destruct (trimEnd s) as [|c' t].
  - destruct (isBlank c); [reflexivity|].
    simpl. now destruct (ascii_dec c c).
  - change (String.prefix (String c (String c' t)) (String c s))
      with (if ascii_dec c c then String.prefix (String c' t) s else false).
    now destruct (ascii_dec c c).
Qed.

(** The type is how the content-type value starts. *)
Lemma prefix_mediaType (ct : string) :
  String.prefix (mediaType ct) ct = true.
Proof.
  unfold mediaType.
  exact (string_prefix_trans _ _ _ (prefix_trimEnd _) (prefix_beforeParameters ct)).
Qed.

Lemma kindOf_json (ct : string) :
  mediaType ct = "application/json"%string \/
  hasSuffix "+json" (mediaType ct) = true ->
  kindOf ct = JsonFamily.
Proof.
  unfold kindOf. intros [Ht | Hs].
  - pose proof (prefix_mediaType ct) as Hp. rewrite Ht in Hp.
    now rewrite Hp.
  - rewrite Hs. now rewrite orb_true_r.
Qed.

(** The classifier throws on no input. *)
Lemma classify_never_throws (contentType : option string) (body : string) :
  isOk (classify parseJson decodeUrlForm decodeMultipart contentType body)
  = true.
Proof.
  unfold classify. destruct (String.eqb body ""); [reflexivity|].
  destruct contentType as [ct|]; [|reflexivity].
  destruct (kindOf ct); try reflexivity.
  now destruct (parseJson body).
Qed.

(** A zero-length body yields no record, whatever its content type. *)
Lemma classify_empty (contentType : option string) :
  classify parseJson decodeUrlForm decodeMultipart contentType ""
  = Ok None.
Proof. reflexivity. Qed.

(** C6. A body declared as [application/json], or as a type ending in
    [+json], with or without parameters, that the JSON parser rejects is
    recorded in text form, with the bytes as received and the content
    type as declared; and the classifier throws on no input at all. A
    body is a non-empty sequence of bytes: the zero-length body is a case
    of its own in the classifier, and has no record ([classify_empty]). *)
Theorem malformed_json_degrades_to_text
    (ct body : string) (e : JsError) :
  mediaType ct = "application/json"%string \/
  hasSuffix "+json" (mediaType ct) = true ->
  parseJson body = Throw e ->
  body <> ""%string ->
  classify parseJson decodeUrlForm decodeMultipart (Some ct) body
    = Ok (Some (TextForm ct body)) /\
  forall contentType' body',
    isOk (classify parseJson decodeUrlForm decodeMultipart contentType' body')
    = true.
Proof.
  intros Hct Hparse Hne. split; [|apply classify_never_throws].
  unfold classify.
  destruct (String.eqb_spec body ""); [contradiction|].
  now rewrite (kindOf_json ct Hct), Hparse.
Qed.

End ClassifierFacts.

(** * Examples *)

(** ** The call on concrete requests *)

Section FixtureExamples.

Import Fixture.

(** A request that took a quarter of a second, with nothing optional
    supplied. *)
Example construct_plain :
  construct (payloadData "owlbert-api-key" None None started (started + 250)) None
  = Ok
      {| OutgoingLogBody._id := "5a5a5a5a-5a5a-4a5a-9a5a-5a5a5a5a5a5a";
         OutgoingLogBody.group :=
           {| Group.id := "owlbert-api-key";
              Group.label := Some "Owlbert"%string;
              Group.email := Some "owlbert@example.com"%string |};
         OutgoingLogBody.clientIPAddress := Some "127.0.0.1"%string;
         OutgoingLogBody.development := false;
         OutgoingLogBody.request :=
           {| Har.log :=
                {| Log.version := "1.2";
                   Log.creator :=
                     {| Creator.name := "readme-metrics (node)";
                        Creator.version := "5.0.0";
                        Creator.comment := "x64-darwin21.3.0/14.19.3" |};
                   Log.entries :=
                     [ {| Entry.pageref := "http://localhost:8000/users/1?page=2";
                          Entry.startedDateTime := "2022-06-30T10:21:55.394Z";
                          Entry.time := Js.Num 250;
                          Entry.request := ("GET", "/users/1?page=2")%string;
                          Entry.response := (200, Some "ok"%string);
                          Entry.cache := tt;
                          Entry.timings :=
                            {| Timings.wait := Js.Num 0;
                               Timings.receive := Js.Num 250 |} |} ] |} |} |}.
Proof. reflexivity. Qed.

(** An invalid start date makes [toISOString] throw. *)
Example construct_invalid_start :
  constructPayload newURL processRequest processResponse runtime rnds req 200
    {| PayloadData.apiKey := "k";
       PayloadData.label := None;
       PayloadData.email := None;
       PayloadData.startedDateTime := Date.ofNumber Js.NaN;
       PayloadData.responseEndDateTime := Date.ofNumber (Js.Num started);
       PayloadData.logId := None;
       PayloadData.routePath := None;
       PayloadData.requestBody := None;
       PayloadData.responseBody := None |}
    None
  = Throw (RangeError "Invalid time value").
Proof. reflexivity. Qed.

(** An invalid end date only makes the duration [NaN]. *)
Example construct_invalid_end :
  match
    constructPayload newURL processRequest processResponse runtime rnds req 200
      {| PayloadData.apiKey := "k";
         PayloadData.label := None;
         PayloadData.email := None;
         PayloadData.startedDateTime := Date.ofNumber (Js.Num started);
         PayloadData.responseEndDateTime :=
           Date.ofNumber (Js.Num (Date.maxTime + 1));
         PayloadData.logId := None;
         PayloadData.routePath := None;
         PayloadData.requestBody := None;
         PayloadData.responseBody := None |}
      None
  with
  | Ok p => map Entry.time (OutgoingLogBody.entries p) = [Js.NaN]
  | Throw _ => False
  end.
Proof. reflexivity. Qed.

(** An empty Host header leaves the base without a host, which the URL
    constructor rejects. *)
Example construct_invalid_url :
  constructPayload newURL processRequest processResponse runtime rnds
    {| IncomingMessage.url := "/";
       IncomingMessage.method := "GET";
       IncomingMessage.httpVersion := "1.0";
       IncomingMessage.headers := {[ "host"%string := ""%string ]};
       IncomingMessage.socket := IncomingMessage.mkSocket None None |}
    200 (payloadData "k" None None started started) None
  = Throw (TypeError "Invalid URL").
Proof. reflexivity. Qed.

(** With no Host header the template prints [undefined]; an encrypted
    socket gives https. *)
Example baseURL_no_host :
  baseURL
    {| IncomingMessage.url := "/";
       IncomingMessage.method := "GET";
       IncomingMessage.httpVersion := "1.1";
       IncomingMessage.headers := ∅;
       IncomingMessage.socket := IncomingMessage.mkSocket (Some true) None |}
  = "https://undefined"%string.
Proof. reflexivity. Qed.

(** A route path and a log id of the caller's. *)
Example construct_route_and_id :
  match
    construct
      (payloadData "k" (Some "my-id"%string) (Some "/users/{id}"%string)
         started (started + 1))
      (Some logOptions)
  with
  | Ok p =>
      OutgoingLogBody._id p = "my-id"%string /\
      map Entry.pageref (OutgoingLogBody.entries p) = ["/users/{id}"%string] /\
      OutgoingLogBody.development p = true
  | Throw _ => False
  end.
Proof. repeat split. Qed.

(** Far-apart dates: the difference is odd and beyond 2^53, so the double
    is the neighbouring multiple of four. *)
Example sub_rounds_to_even :
  Js.sub (Js.Num Date.maxTime) (Js.Num (1 - Date.maxTime))
  = Js.Num 17280000000000000.
Proof. reflexivity. Qed.

End FixtureExamples.

(** ** JSON texts and bodies *)

Section ClassifierExamples.

Import BodyClassifier.

Example json_texts :
  map Json.valid
    ["null"; "[1,2,3]"; "{}"; " [ ] "; "-0.5e+10"; "[[[]]]"; "1e5"]%string
  = [true; true; true; true; true; true; true].
Proof. reflexivity. Qed.

Example not_json_texts :
  map Json.valid
    [""; "nul"; "[1,2"; "{"; "01"; "1."; "[1,]"; "true false"; "- 1"; ".5";
     "{bad"]%string
  = [false; false; false; false; false; false; false; false; false; false;
     false].
Proof. reflexivity. Qed.

Example json_object : Json.valid Fixture.userJson = true.
Proof. reflexivity. Qed.

Example classify_json :
  Fixture.classify (Some "application/json"%string) Fixture.userJson
  = Ok (Some (TextForm "application/json" Fixture.userJson)).
Proof. reflexivity. Qed.

Example classify_malformed_json :
  Fixture.classify (Some "application/json"%string) "{bad"
  = Ok (Some (TextForm "application/json" "{bad")).
Proof. reflexivity. Qed.

Example mediaType_samples :
  map mediaType
    ["application/json"; "application/json; charset=utf-8";
     "application/vnd.api+json;charset=utf-8";
     "multipart/form-data ; boundary=x"; "text/plain"; ""]%string
  = ["application/json"; "application/json"; "application/vnd.api+json";
     "multipart/form-data"; "text/plain"; ""]%string.
Proof. reflexivity. Qed.

Example classify_malformed_vendored_json :
  Fixture.classify (Some "application/vnd.api+json; charset=utf-8"%string)
    "{bad"
  = Ok (Some (TextForm "application/vnd.api+json; charset=utf-8" "{bad")).
Proof. reflexivity. Qed.

Example classify_empty_json :
  Json.parse "" = Throw (SyntaxError "Unexpected token in JSON") /\
  Fixture.classify (Some "application/json"%string) "" = Ok None.
Proof. split; reflexivity. Qed.

Example classify_url_form :
  Fixture.classify (Some "application/x-www-form-urlencoded"%string)
    "email=dom&name=owl"
  = Ok (Some (ParamsForm "application/x-www-form-urlencoded"
                [FieldFilter.mkField "email" "dom" None None;
                 FieldFilter.mkField "name" "owl" None None])).
Proof. reflexivity. Qed.

Example classify_no_content_type :
  Fixture.classify None "Hello world"
  = Ok (Some (TextForm "text/plain" "Hello world")).
Proof. reflexivity. Qed.

Example filter_with_allowList :
  FieldFilter.filterFields "[REDACTED]"
    (FieldFilter.mkConfig {[ "authorization"%string ]} {[ "authorization"%string ]})
    [FieldFilter.mkField "authorization" "Bearer abc" None None;
     FieldFilter.mkField "cookie" "session=1" None None]
  = [FieldFilter.mkField "authorization" "Bearer abc" None None;
     FieldFilter.mkField "cookie" "[REDACTED]" None None].
Proof. vm_compute. reflexivity. Qed.

Example filter_with_denyList :
  FieldFilter.filterFields "[REDACTED]"
    (FieldFilter.mkConfig {[ "authorization"%string ]} ∅)
    [FieldFilter.mkField "authorization" "Bearer abc" None None;
     FieldFilter.mkField "cookie" "session=1" None None]
  = [FieldFilter.mkField "authorization" "[REDACTED]" None None;
     FieldFilter.mkField "cookie" "session=1" None None].
Proof. vm_compute. reflexivity. Qed.

End ClassifierExamples.

(** * The claims on concrete inputs *)

Section ClaimInstances.

Import Fixture.

(** C1 as stated fails: a call with the empty API key returns a payload,
    whose [group.id] is the empty string. *)
Lemma empty_apiKey_is_not_rejected :
  exists p,
    construct (payloadData "" None None started (started + 250))
      (Some logOptions) = Ok p /\
    Group.id (OutgoingLogBody.group p) = ""%string.
Proof. eexists. split; reflexivity. Qed.

(** C2 as stated fails: a response that ended 100 ms before the request
    started is reported with a [time] of -100. *)
Lemma inverted_timestamps_give_negative_time :
  exists p,
    construct (payloadData "owlbert-api-key" None None started (started - 100))
      None = Ok p /\
    map Entry.time (OutgoingLogBody.entries p) = [Js.Num (-100)].
Proof. eexists. split; reflexivity. Qed.

Lemma time_is_unclamped_difference_witness :
  exists p,
    construct (payloadData "owlbert-api-key" None None started (started - 100))
      None = Ok p /\
    exists entry,
      OutgoingLogBody.entries p = [entry] /\
      Entry.time entry = Js.sub (Js.Num (started - 100)) (Js.Num started) /\
      (Z.abs (started - 100 - started) <= Js.maxExact ->
         Entry.time entry = Js.Num (started - 100 - started)) /\
      Js.isNegative (Entry.time entry) = (started - 100 <? started).
Proof.
  eexists. split; [reflexivity|].
  apply (time_is_unclamped_difference newURL processRequest processResponse
           runtime rnds req 200 None
           (payloadData "owlbert-api-key" None None started (started - 100)));
    reflexivity.
Defined.

(** C4 as stated fails: the empty string supplied as [routePath] is not
    the [pageref]; the request's URL is. *)
Lemma empty_routePath_is_not_the_pageref :
  exists p,
    construct
      (payloadData "owlbert-api-key" None (Some ""%string) started started)
      None = Ok p /\
    map Entry.pageref (OutgoingLogBody.entries p)
    = ["http://localhost:8000/users/1?page=2"%string].
Proof. eexists. split; reflexivity. Qed.

Lemma pageref_is_routePath_or_request_url_witness :
  exists p,
    construct
      (payloadData "owlbert-api-key" None (Some "/users/{id}"%string)
         started started)
      None = Ok p /\
    exists entry,
      OutgoingLogBody.entries p = [entry] /\
      (forall path, Some "/users/{id}"%string = Some path ->
         path <> ""%string -> Entry.pageref entry = path) /\
      (Some "/users/{id}"%string = None \/
       Some "/users/{id}"%string = Some ""%string ->
         newURL (IncomingMessage.url req)
           (getProto req +:+ "://" +:+
            Js.interpolate (IncomingMessage.headers req !! "host"%string))
         = Some (Entry.pageref entry)) /\
      getProto req
      = match IncomingMessage.encrypted (IncomingMessage.socket req) with
        | Some true => "https"%string
        | _ => "http"%string
        end.
Proof.
  eexists. split; [reflexivity|].
  apply (pageref_is_routePath_or_request_url newURL processRequest
           processResponse runtime rnds req 200 None
           (payloadData "owlbert-api-key" None (Some "/users/{id}"%string)
              started started)).
  reflexivity.
Defined.

(** C5 as stated fails: the empty string supplied as [logId] is not the
    [_id]; a generated identifier is. *)
Lemma empty_logId_is_not_the_id :
  exists p,
    construct
      (payloadData "owlbert-api-key" (Some ""%string) None started started)
      None = Ok p /\
    OutgoingLogBody._id p = "5a5a5a5a-5a5a-4a5a-9a5a-5a5a5a5a5a5a"%string.
Proof. eexists. split; reflexivity. Qed.

Lemma id_is_logId_or_uuid_witness :
  exists p,
    construct (payloadData "owlbert-api-key" None None started started)
      None = Ok p /\
    (forall id, @None string = Some id ->
       id <> ""%string -> OutgoingLogBody._id p = id) /\
    (@None string = None \/ @None string = Some ""%string ->
       OutgoingLogBody._id p = Uuid.v4 rnds /\
       Pattern.isUuidV4 (OutgoingLogBody._id p) = true).
Proof.
  eexists. split; [reflexivity|].
  apply (id_is_logId_or_uuid newURL processRequest processResponse runtime
           rnds req 200 None
           (payloadData "owlbert-api-key" None None started started)).
  reflexivity.
Defined.

Lemma startedDateTime_is_iso_utc_millis_witness :
  exists p,
    construct (payloadData "owlbert-api-key" None None started (started + 250))
      None = Ok p /\
    Forall
      (fun entry =>
         Date.toISOString (Date.ofNumber (Js.Num started))
           = Ok (Entry.startedDateTime entry) /\
         Pattern.isIsoUtcMillis (Entry.startedDateTime entry) = true)
      (OutgoingLogBody.entries p).
Proof.
  eexists. split; [reflexivity|].
  apply (startedDateTime_is_iso_utc_millis newURL processRequest
           processResponse runtime rnds req 200 None
           (payloadData "owlbert-api-key" None None started (started + 250))).
  reflexivity.
Defined.

Lemma empty_logId_is_replaced_witness :
  exists p,
    construct
      (payloadData "owlbert-api-key" (Some ""%string) None started started)
      None = Ok p /\
    (Some ""%string = Some ""%string ->
       OutgoingLogBody._id p = Uuid.v4 rnds /\
       Pattern.isUuidV4 (OutgoingLogBody._id p) = true) /\
    OutgoingLogBody._id p <> ""%string.
Proof.
  eexists. split; [reflexivity|].
  apply (empty_logId_is_replaced newURL processRequest processResponse
           runtime rnds req 200 None
           (payloadData "owlbert-api-key" (Some ""%string) None started
              started)).
  reflexivity.
Defined.

Lemma development_is_boolean_of_option_witness :
  exists p,
    construct (payloadData "owlbert-api-key" None None started started)
      (Some logOptions) = Ok p /\
    (OutgoingLogBody.development p = true <->
       exists o, Some logOptions = Some o /\
                 LogOptions.development o = Some true) /\
    (Some logOptions = None \/
     (exists o, Some logOptions = Some o /\ LogOptions.development o = None) ->
       OutgoingLogBody.development p = false).
Proof.
  eexists. split; [reflexivity|].
  apply (development_is_boolean_of_option newURL processRequest
           processResponse runtime rnds req 200 (Some logOptions)
           (payloadData "owlbert-api-key" None None started started)).
  reflexivity.
Defined.

Lemma envelope_invariant_witness :
  exists p,
    construct (payloadData "owlbert-api-key" None None started (started + 250))
      None = Ok p /\
    Log.version (Har.log (OutgoingLogBody.request p)) = "1.2"%string /\
    exists entry,
      Log.entries (Har.log (OutgoingLogBody.request p)) = [entry] /\
      Timings.wait (Entry.timings entry) = Js.Num 0 /\
      Timings.receive (Entry.timings entry) = Entry.time entry.
Proof.
  eexists. split; [reflexivity|].
  apply (envelope_invariant newURL processRequest processResponse runtime
           rnds req 200 None
           (payloadData "owlbert-api-key" None None started (started + 250))).
  reflexivity.
Defined.

Import FieldFilter BodyClassifier.

Lemma allowList_ignores_denyList_witness :
  let allow : gset string := {[ "authorization"%string ]} in
  let deny : gset string := {[ "authorization"%string; "cookie"%string ]} in
  let fs := [mkField "authorization" "Bearer abc" None None;
             mkField "cookie" "session=1" None None] in
  allow ≠ ∅ /\
  filterFields "[REDACTED]" (mkConfig deny allow) fs
    = filterFields "[REDACTED]" (mkConfig ∅ allow) fs /\
  (forall n, keeps (mkConfig deny allow) n = true <-> n ∈ allow) /\
  Forall2
    (fun f g =>
       name g = name f /\
       (name f ∈ allow -> value g = value f) /\
       (name f ∉ allow -> value g = "[REDACTED]"%string))
    fs (filterFields "[REDACTED]" (mkConfig deny allow) fs).
Proof.
  intros allow deny fs.
  assert (allow ≠ ∅) as Hne by (apply (bool_decide_unpack _); vm_compute; exact I).
  split; [exact Hne|].
  exact (allowList_ignores_denyList "[REDACTED]" deny ∅ allow fs Hne).
Defined.

Lemma malformed_json_degrades_to_text_witness :
  Fixture.classify (Some "application/vnd.api+json; charset=utf-8"%string)
    "{bad"
    = Ok (Some (TextForm "application/vnd.api+json; charset=utf-8" "{bad")) /\
  forall contentType' body',
    isOk (Fixture.classify contentType' body') = true.
Proof.
  apply (malformed_json_degrades_to_text Json.parse decodeUrlForm
           decodeMultipart "application/vnd.api+json; charset=utf-8" "{bad"
           (SyntaxError "Unexpected token in JSON")).
  - right. reflexivity.
  - reflexivity.
  - discriminate.
Defined.

End ClaimInstances.

(** * More of the payload *)

(** ** The test's patterns *)

Create HintDb covers.

(** Decides a statement about one character by trying them all. *)
Ltac by_ascii_cases c :=
  destruct c as [[|] [|] [|] [|] [|] [|] [|] [|]];
  try reflexivity; try discriminate.

Section RegexFacts.

Import Regex.

Lemma covers_digit : covers Pattern.Digit digit.
Proof. intros c. by_ascii_cases c. Qed.

Lemma covers_hex : covers Pattern.Hex hexI.
Proof. intros c. by_ascii_cases c. Qed.

Lemma covers_lit (c' : ascii) : covers (Pattern.Lit c') (lit c').
Proof.
  intros c H. simpl in H. apply Ascii.eqb_eq in H. subst c.
  apply Ascii.eqb_refl.
Qed.

Lemma covers_dot : covers (Pattern.Lit ".") dot.
Proof. intros c. by_ascii_cases c. Qed.

Lemma covers_version : covers (Pattern.Lit "4") (range "0" "5").
Proof. intros c. by_ascii_cases c. Qed.

Lemma covers_version_4 : covers (Pattern.Lit "4") (lit "4").
Proof. apply covers_lit. Qed.

Lemma covers_variant : covers Pattern.Variant (anyOf "089abAB").
Proof. intros c. by_ascii_cases c. Qed.

Lemma covers_variant_strict : covers Pattern.Variant (anyOf "89abAB").
Proof. intros c. by_ascii_cases c. Qed.

(** A text of a given shape matches every expression that covers the
    shape, class by class. *)
Lemma matches_covered (p : list Pattern.Class) (q : list CharSet) :
  Forall2 covers p q ->
  forall s, Pattern.matches p s = true -> matchesAll q s = true.
Proof.
  induction 1 as [|k f p q Hk _ IH]; intros s Hs.
  - destruct s; [reflexivity | discriminate].
  - destruct s as [|c s]; [discriminate|].
    simpl in Hs. apply andb_true_iff in Hs. destruct Hs as [Hc Hs].
    simpl. now rewrite (Hk c Hc), (IH s Hs).
Qed.

Lemma matchesAll_matchesPrefix (q : list CharSet) (s : string) :
  matchesAll q s = true -> matchesPrefix q s = true.
Proof.
  revert s. induction q as [|f q IH]; intros s H; [reflexivity|].
  destruct s as [|c s]; [discriminate|].
  simpl in *. apply andb_true_iff in H. destruct H as [Hc Hs].
  now rewrite Hc, (IH s Hs).
Qed.

Lemma matchesPrefix_search (q : list CharSet) (s : string) :
  matchesPrefix q s = true -> search q s = true.
Proof. intros H. destruct s; simpl; now rewrite H. Qed.

Lemma search_tail (q : list CharSet) (c : ascii) (s : string) :
  search q s = true -> search q (String c s) = true.
Proof.
  intros H. change (matchesPrefix q (String c s) || search q s = true).
  rewrite H. apply orb_true_r.
Qed.

Hint Resolve covers_digit covers_hex covers_lit covers_dot covers_version
  covers_version_4 covers_variant covers_variant_strict : covers.

(** A UUID of version 4 in lower case passes the test's expression, which
    admits more. *)
Lemma isUuidV4_testUuid (s : string) :
  Pattern.isUuidV4 s = true -> testUuid s = true.
Proof.
  apply matches_covered.
  unfold Pattern.uuidV4, uuid. simpl. repeat constructor; auto with covers.
Qed.

(** And so does it pass the expression of [is-valid-uuid-v4]. *)
Lemma isUuidV4_isValidUUIDV4 (s : string) :
  Pattern.isUuidV4 s = true -> Fixture2.isValidUUIDV4 s = true.
Proof.
  apply matches_covered.
  unfold Pattern.uuidV4, Fixture2.uuidV4. simpl.
  repeat constructor; auto with covers.
Qed.

(** What [toISOString] prints passes the test's expression for
    [startedDateTime]: as a whole with a four-digit year, from its fourth
    character on with an expanded year. *)
Lemma isIsoUtcMillis_testStartedDateTime (s : string) :
  Pattern.isIsoUtcMillis s = true -> testStartedDateTime s = true.
Proof.
  assert (forall t, Pattern.matches Pattern.isoDate t = true ->
                    search (dateTime ++ dot :: repeat digit 3 ++ [lit "Z"]) t
                    = true) as Hshort.
  { intros t Ht. apply matchesPrefix_search, matchesAll_matchesPrefix.
    revert t Ht. apply matches_covered.
    unfold Pattern.isoDate, dateTime. simpl.
    repeat constructor; auto with covers. }
  unfold Pattern.isIsoUtcMillis, testStartedDateTime. intros H.
  apply orb_true_iff in H. apply orb_true_iff. left.
  destruct H as [H | H]; [now apply Hshort|].
  unfold Pattern.isoDateExpanded in H. cbn [repeat app] in H.
  do 3 (destruct s as [|? s]; [discriminate H|];
        rewrite matches_cons in H; apply andb_true_iff in H;
        destruct H as [_ H]).
  now apply search_tail, search_tail, search_tail, Hshort.
Qed.

End RegexFacts.

(** ** What the caller's choices switch off *)

Section ConstructMore.

Context {Body ServerResponse Req Res : Type}.
Variable newURL : string -> string -> option string.
Variable processRequest :
  IncomingMessage.t -> option Body -> option LogOptions.t -> Result Req.
Variable processResponse :
  ServerResponse -> option string -> option LogOptions.t -> Result Res.
Variable runtime : Runtime.

Variable rnds : Uuid.Entropy.
Variable req : IncomingMessage.t.
Variable res : ServerResponse.
Variable logOptions : option LogOptions.t.

(** X5. With a non-empty [logId], [uuidv4()] is never called: the call
    gives the same result whatever the random source would have given. *)
Theorem logId_makes_random_source_irrelevant
    (payloadData : PayloadData.t Body) (rnds' : Uuid.Entropy) :
  Js.truthyString (PayloadData.logId payloadData) = true ->
  constructPayload newURL processRequest processResponse runtime
    rnds req res payloadData logOptions
  = constructPayload newURL processRequest processResponse runtime
      rnds' req res payloadData logOptions.
Proof.
  intros Ht. unfold constructPayload.
  replace (Js.orElse (PayloadData.logId payloadData) (Uuid.v4 rnds'))
    with (Js.orElse (PayloadData.logId payloadData) (Uuid.v4 rnds));
    [reflexivity|].
  rewrite !orElse_truthy, Ht.
  now destruct (PayloadData.logId payloadData).
Qed.

(** X6. With a non-empty [routePath], the URL constructor is never
    called: the call gives the same result whatever the constructor
    does, also when it would reject the request's target or its Host
    header with a [TypeError]. *)
Theorem routePath_makes_url_irrelevant
    (payloadData : PayloadData.t Body)
    (newURL' : string -> string -> option string) :
  Js.truthyString (PayloadData.routePath payloadData) = true ->
  constructPayload newURL processRequest processResponse runtime
    rnds req res payloadData logOptions
  = constructPayload newURL' processRequest processResponse runtime
      rnds req res payloadData logOptions.
Proof.
  intros Ht. unfold constructPayload.
  rewrite !pagerefOf_spec, Ht. reflexivity.
Qed.

(** X7. Every payload passes the integration test's check of
    [startedDateTime]: the text matches
    [\d{4}-\d{2}-\d{2}T\d{2}:\d{2}:\d{2}(?:.\d{3})?Z], for years of more
    than four digits too. *)
Theorem startedDateTime_passes_the_test
    (payloadData : PayloadData.t Body) (p : OutgoingLogBody.t Req Res) :
  constructPayload newURL processRequest processResponse runtime
    rnds req res payloadData logOptions = Ok p ->
  Forall
    (fun entry =>
       Regex.testStartedDateTime (Entry.startedDateTime entry) = true)
    (OutgoingLogBody.entries p).
Proof.
  intros Hp.
  destruct (constructPayload_inv _ _ _ _ _ _ _ _ _ _ Hp)
    as (pageref & started & request & response & _ & Hiso & _ & _ & _ & _
        & _ & _ & _ & Hentries).
  rewrite Hentries. constructor; [|constructor].
  cbn [Entry.startedDateTime].
  apply isIsoUtcMillis_testStartedDateTime.
  exact (toISOString_shape _ _ Hiso).
Qed.

(** X8. A payload built without a usable [logId] passes the integration
    test's check of [_id], the expression
    [^[0-9a-f]{8}-[0-9a-f]{4}-[0-5][0-9a-f]{3}-[089ab][0-9a-f]{3}-[0-9a-f]{12}$]. *)
Theorem generated_id_passes_the_test
    (payloadData : PayloadData.t Body) (p : OutgoingLogBody.t Req Res) :
  Js.truthyString (PayloadData.logId payloadData) = false ->
  constructPayload newURL processRequest processResponse runtime
    rnds req res payloadData logOptions = Ok p ->
  Regex.testUuid (OutgoingLogBody._id p) = true.
Proof.
  intros Hf Hp.
  destruct (constructPayload_inv _ _ _ _ _ _ _ _ _ _ Hp)
    as (pageref & started & request & response & _ & _ & _ & _ & Hid & _).
  rewrite Hid, orElse_truthy, Hf.
  apply isUuidV4_testUuid, v4_isUuidV4.
Qed.

End ConstructMore.

(** * The test helpers *)

(** ** Objects and strings *)

Section ObjectFacts.

Import JsObject.

Lemma getOwn_define (o : t) (k v k' : string) :
  getOwn (define o k v) k'
  = if String.eqb k k' then Some v else getOwn o k'.
Proof.
  induction o as [|[k0 v0] o IH]; simpl.
  - reflexivity.
  - destruct (String.eqb_spec k0 k) as [-> | Hne]; simpl.
    + now destruct (String.eqb k k').
    + rewrite IH.
      destruct (String.eqb_spec k0 k'); [|reflexivity].
      subst k'. now destruct (String.eqb_spec k k0); [congruence|].
Qed.

Lemma getOwn_set (o : t) (k v k' : string) :
  getOwn (set o k v) k'
  = if String.eqb k k' && negb (String.eqb k "__proto__")
    then Some v else getOwn o k'.
Proof.
  unfold set. destruct (String.eqb k "__proto__"); simpl.
  - now rewrite andb_false_r.
  - rewrite andb_true_r. apply getOwn_define.
Qed.

Lemma getOwn_None (o : t) (k : string) :
  getOwn o k = None <-> ~ In k (map fst o).
Proof.
  induction o as [|[k0 v0] o IH]; simpl; [tauto|].
  destruct (String.eqb_spec k0 k); [|tauto].
  split; [discriminate | tauto].
Qed.


Lemma In_insertByIndex (x y : N * string) (l : list (N * string)) :
  In y (insertByIndex x l) <-> y = x \/ In y l.
Proof.
  induction l as [|z l IH]; simpl; [intuition|].
  destruct (fst x <=? fst z)%N; simpl; [intuition|].
  rewrite IH. intuition.
Qed.

Lemma In_sorted (l : list (N * string)) (y : N * string) :
  In y (fold_right insertByIndex [] l) <-> In y l.
Proof.
  induction l as [|x l IH]; simpl; [tauto|].
  rewrite In_insertByIndex, IH. intuition.
Qed.

(** [Object.keys] lists the own properties, all of them and nothing
    else. *)
Lemma In_ownKeys (o : t) (k : string) :
  In k (ownKeys o) <-> In k (map fst o).
Proof.
  unfold ownKeys, indexKeys.
  rewrite in_app_iff, in_map_iff, filter_In. split.
  - intros [((i & k') & Hk & Hin) | [Hin _]]; [|exact Hin].
    simpl in Hk. subst k'. apply In_sorted, in_flat_map in Hin.
    destruct Hin as ((k0 & v0) & Hin0 & Hk0). simpl in Hk0.
    destruct (arrayIndex k0); simpl in Hk0; [|contradiction].
    destruct Hk0 as [[= _ ->] | []].
    apply in_map_iff. now exists (k, v0).
  - intros Hin. destruct (arrayIndex k) as [i|] eqn:E; [left | now right].
    exists (i, k). split; [reflexivity|].
    apply In_sorted, in_flat_map.
    apply in_map_iff in Hin. destruct Hin as ((k0 & v0) & Hk0 & Hin0).
    simpl in Hk0. subst k0. exists (k, v0). split; [exact Hin0|].
    simpl. rewrite E. now left.
Qed.

(** Assigning an object literal of one property sets that property. *)
Lemma assign_single (o : t) (k v : string) :
  assign o [(k, v)] = set o k v.
Proof.
  unfold assign, ownKeys, indexKeys. simpl.
  destruct (arrayIndex k); simpl; now rewrite String.eqb_refl.
Qed.

End ObjectFacts.

Section StringFacts.

Lemma append_assoc (a b c : string) : (a +:+ b) +:+ c = a +:+ (b +:+ c).
Proof.
  induction a as [|x a IH]; [reflexivity|].
  change (String x ((a +:+ b) +:+ c) = String x (a +:+ (b +:+ c))).
  now f_equal.
Qed.

Lemma prefix_app (p s : string) : String.prefix p (p +:+ s) = true.
Proof.
  induction p as [|c p IH]; simpl; [now destruct s|].
  destruct (ascii_dec c c); [exact IH | contradiction].
Qed.

Lemma drop_app (p s : string) : JsString.drop (String.length p) (p +:+ s) = s.
Proof. induction p as [|c p IH]; simpl; [reflexivity | exact IH]. Qed.

Lemma replace_found (p s : string) :
  String.prefix p s = true ->
  JsString.replace p s = JsString.drop (String.length p) s.
Proof. intros H. destruct s; cbn [JsString.replace]; now rewrite H. Qed.

(** Removing a pattern from a text that starts with it leaves the rest. *)
Lemma replace_prefix (p s : string) : JsString.replace p (p +:+ s) = s.
Proof. rewrite replace_found by apply prefix_app. apply drop_app. Qed.

(** A prefix brings all its characters. *)
Lemma prefix_In (p s : string) (c : ascii) :
  String.prefix p s = true ->
  In c (list_ascii_of_string p) -> In c (list_ascii_of_string s).
Proof.
  revert s. induction p as [|a p IH]; intros s Hp Hc; [contradiction|].
  destruct s as [|b s]; [discriminate|].
  simpl in Hp. destruct (ascii_dec a b) as [-> | _]; [|discriminate].
  destruct Hc as [-> | Hc]; [now left | right; now apply IH].
Qed.

(** A text that lacks one of the pattern's characters is left as it is. *)
Lemma replace_absent (p s : string) (c : ascii) :
  In c (list_ascii_of_string p) ->
  ~ In c (list_ascii_of_string s) ->
  JsString.replace p s = s.
Proof.
  intros Hp. induction s as [|a s IH]; intros Hs.
  - cbn [JsString.replace]. destruct (String.prefix p "") eqn:E; [|reflexivity].
    exfalso. apply Hs. exact (prefix_In _ _ _ E Hp).
  - cbn [JsString.replace].
    destruct (String.prefix p (String a s)) eqn:E.
    + exfalso. apply Hs. exact (prefix_In _ _ _ E Hp).
    + rewrite IH; [reflexivity|]. intros Hin. apply Hs. now right.
Qed.

Lemma In_app_string (a b : string) (c : ascii) :
  In c (list_ascii_of_string b) -> In c (list_ascii_of_string (a +:+ b)).
Proof. induction a as [|x a IH]; simpl; [trivial | right; now apply IH]. Qed.

(** No character of a text of a given shape is outside all its classes. *)
Lemma matches_excludes (p : list Pattern.Class) (c : ascii) :
  forallb (fun k => negb (Pattern.inClass k c)) p = true ->
  forall s, Pattern.matches p s = true -> ~ In c (list_ascii_of_string s).
Proof.
  induction p as [|k p IH]; intros Hp s Hs Hin.
  - destruct s; [contradiction | discriminate].
  - destruct s as [|a s]; [discriminate|].
    simpl in Hp, Hs. apply andb_true_iff in Hp, Hs.
    destruct Hp as [Hk Hp]. destruct Hs as [Ha Hs].
    destruct Hin as [-> | Hin].
    + rewrite Ha in Hk. discriminate.
    + exact (IH Hp s Hs Hin).
Qed.

End StringFacts.

(** ** arrayToObject *)

Section ArrayToObjectFacts.

Import JsObject.

Lemma find_app {A : Type} (f : A -> bool) (l1 l2 : list A) :
  find f (l1 ++ l2)
  = match find f l1 with Some x => Some x | None => find f l2 end.
Proof.
  induction l1 as [|x l1 IH]; simpl; [reflexivity|].
  now destruct (f x).
Qed.

(** The reduction sets one property per entry, from first to last. *)
Lemma arrayToObject_sets (array : list NameValue.t) (o : t) :
  fold_left
    (fun prev next =>
       assign prev [(NameValue.name next, NameValue.value next)])
    array o
  = fold_left
      (fun prev next => set prev (NameValue.name next) (NameValue.value next))
      array o.
Proof.
  revert o. induction array as [|x array IH]; intros o; simpl; [reflexivity|].
  now rewrite assign_single, IH.
Qed.

Lemma getOwn_sets (array : list NameValue.t) (o : t) (n : string) :
  getOwn
    (fold_left
       (fun prev next => set prev (NameValue.name next) (NameValue.value next))
       array o) n
  = if String.eqb n "__proto__" then getOwn o n
    else
      match find (fun x => String.eqb (NameValue.name x) n) (rev array) with
      | Some x => Some (NameValue.value x)
      | None => getOwn o n
      end.
Proof.
  revert o. induction array as [|x array IH]; intros o.
  - simpl. now destruct (String.eqb n "__proto__").
  - cbn [fold_left rev]. rewrite IH, find_app, getOwn_set. cbn [find].
    destruct (String.eqb n "__proto__") eqn:Hn.
    + apply String.eqb_eq in Hn. rewrite Hn.
      destruct (String.eqb_spec (NameValue.name x) "__proto__");
        [now rewrite andb_false_r | reflexivity].
    + apply String.eqb_neq in Hn.
      destruct (find _ (rev array)); [reflexivity|].
      destruct (String.eqb_spec (NameValue.name x) n) as [E | _];
        [|reflexivity].
      destruct (String.eqb_spec (NameValue.name x) "__proto__");
        [congruence | reflexivity].
Qed.

Lemma getOwn_arrayToObject (array : list NameValue.t) (n : string) :
  getOwn (arrayToObject array) n
  = if String.eqb n "__proto__" then None
    else option_map NameValue.value
           (find (fun x => String.eqb (NameValue.name x) n) (rev array)).
Proof.
  unfold arrayToObject. rewrite arrayToObject_sets, getOwn_sets.
  destruct (String.eqb n "__proto__"); [reflexivity|].
  now destruct (find _ (rev array)).
Qed.

(** X9. The object [arrayToObject] builds holds, under a name, the value
    of the last entry of that name: later duplicates overwrite earlier
    ones. Entries named [__proto__] are lost: no property of that name is
    ever created. A name no entry has is not a property. *)
Theorem arrayToObject_keeps_last_value
    (array : list NameValue.t) (n : string) :
  getOwn (arrayToObject array) n
  = if String.eqb n "__proto__" then None
    else option_map NameValue.value
           (find (fun x => String.eqb (NameValue.name x) n) (rev array)).
Proof.
  unfold arrayToObject. rewrite arrayToObject_sets, getOwn_sets.
  destruct (String.eqb n "__proto__"); [reflexivity|].
  now destruct (find _ (rev array)).
Qed.








(** The properties of the object are the names of the entries, but for
    [__proto__]. *)
Lemma In_keys_arrayToObject (array : list NameValue.t) (k : string) :
  In k (map fst (arrayToObject array)) <->
  k <> "__proto__"%string /\ exists x, In x array /\ NameValue.name x = k.
Proof.
  pose proof (getOwn_arrayToObject array k) as Hget.
  pose proof (getOwn_None (arrayToObject array) k) as Hnone.
  destruct (String.eqb k "__proto__") eqn:Hk.
  - apply String.eqb_eq in Hk. split; [|tauto]. intros Hin. exfalso. tauto.
  - apply String.eqb_neq in Hk.
    destruct (find (fun x => String.eqb (NameValue.name x) k) (rev array))
      as [x|] eqn:Hfind.
    + apply find_some in Hfind. destruct Hfind as [Hin Hname].
      apply in_rev in Hin. apply String.eqb_eq in Hname.
      split; [eauto|]. intros _.
      destruct (in_dec string_dec k (map fst (arrayToObject array)));
        [assumption|].
      apply Hnone in n. rewrite n in Hget. discriminate.
    + split.
      * intros Hin. exfalso. simpl in Hget. tauto.
      * intros (_ & x & Hin & Hname). exfalso.
        apply in_rev in Hin.
        pose proof (find_none _ _ Hfind x Hin) as Hno. simpl in Hno.
        apply String.eqb_neq in Hno. contradiction.
Qed.

End ArrayToObjectFacts.

(** ** The header assertion *)

Section HeaderFacts.

Variable toLowerCase : string -> string.
Variable RegExp : Type.
Variable exec : RegExp -> string -> bool.

(** The fold of [caseless.get] over keys none of which matches. *)
Lemma caseless_fold_no_match (dict : JsObject.t) (name : string)
    (keys : list string) (acc : option string) :
  (forall k, In k keys -> toLowerCase k <> toLowerCase name) ->
  fold_left
    (fun result key =>
       if String.eqb (toLowerCase key) (toLowerCase name)
       then JsObject.getOwn dict key else result)
    keys acc
  = acc.
Proof.
  revert acc. induction keys as [|k keys IH]; intros acc Hno; [reflexivity|].
  simpl. destruct (String.eqb_spec (toLowerCase k) (toLowerCase name)) as [E|_].
  - exfalso. exact (Hno k (or_introl eq_refl) E).
  - apply IH. intros k' Hk'. apply Hno. now right.
Qed.

(** The same fold when every key that matches is the key [n], and one
    does. *)
Lemma caseless_fold_one_spelling (dict : JsObject.t) (name n : string)
    (keys : list string) (acc : option string) :
  (forall k, In k keys -> toLowerCase k = toLowerCase name -> k = n) ->
  (exists k, In k keys /\ toLowerCase k = toLowerCase name) ->
  fold_left
    (fun result key =>
       if String.eqb (toLowerCase key) (toLowerCase name)
       then JsObject.getOwn dict key else result)
    keys acc
  = JsObject.getOwn dict n.
Proof.
  revert acc. induction keys as [|k keys IH] using rev_ind;
    intros acc Hone (k0 & Hin & Hk0); [contradiction|].
  rewrite fold_left_app. simpl.
  destruct (String.eqb_spec (toLowerCase k) (toLowerCase name)) as [E | Hne].
  - rewrite (Hone k); [reflexivity | apply in_app_iff; right; now left | exact E].
  - apply IH.
    + intros k' Hk'. apply Hone. apply in_app_iff. now left.
    + exists k0. split; [|exact Hk0].
      apply in_app_iff in Hin. destruct Hin as [Hin | [-> | []]];
        [exact Hin | contradiction].
Qed.

Lemma caselessGet_absent (obj : list NameValue.t) (name : string) :
  (forall x, In x obj ->
     toLowerCase (NameValue.name x) <> toLowerCase name) ->
  caselessGet toLowerCase (arrayToObject obj) name = None.
Proof.
  intros Hno. unfold caselessGet. apply caseless_fold_no_match.
  intros k Hk. apply In_ownKeys, In_keys_arrayToObject in Hk.
  destruct Hk as (_ & x & Hx & <-). now apply Hno.
Qed.

Lemma caselessGet_one_spelling (obj : list NameValue.t) (name : string)
    (x : NameValue.t) :
  (forall y, In y obj ->
     toLowerCase (NameValue.name y) = toLowerCase name ->
     NameValue.name y = NameValue.name x) ->
  toLowerCase (NameValue.name x) = toLowerCase name ->
  NameValue.name x <> "__proto__"%string ->
  find (fun y => String.eqb (NameValue.name y) (NameValue.name x)) (rev obj)
    = Some x ->
  caselessGet toLowerCase (arrayToObject obj) name
  = Some (NameValue.value x).
Proof.
  intros Hone Hmatch Hproto Hlast. unfold caselessGet.
  rewrite (caseless_fold_one_spelling _ _ (NameValue.name x)).
  - rewrite getOwn_arrayToObject, Hlast.
    now destruct (String.eqb_spec (NameValue.name x) "__proto__").
  - intros k Hk Hlow. apply In_ownKeys, In_keys_arrayToObject in Hk.
    destruct Hk as (_ & y & Hy & <-). now apply Hone.
  - exists (NameValue.name x). split; [|exact Hmatch].
    apply In_ownKeys, In_keys_arrayToObject. split; [exact Hproto|].
    exists x. split; [|reflexivity].
    apply find_some in Hlast. now apply in_rev.
Qed.

(** X11. When no entry of the array has the asked name, in whatever
    letter case, the assertion fails for every expected string and every
    expected list of strings; an expected regular expression is tried on
    the text [undefined]. *)
Theorem header_fails_on_a_missing_header
    (obj : list NameValue.t) (name : string) :
  (forall x, In x obj ->
     toLowerCase (NameValue.name x) <> toLowerCase name) ->
  (forall value,
     isOk (header toLowerCase RegExp exec obj name (EString RegExp value))
     = false) /\
  (forall values,
     isOk (header toLowerCase RegExp exec obj name (EArray RegExp values))
     = false) /\
  (forall re,
     isOk (header toLowerCase RegExp exec obj name (ERegExp RegExp re))
     = exec re "undefined").
Proof.
  intros Hno. unfold header. rewrite (caselessGet_absent _ _ Hno).
  repeat split.
  - intros values. simpl.
    replace (existsb (strictEquals None) values) with false; [reflexivity|].
    induction values as [|v values IH]; [reflexivity | exact IH].
  - intros re. simpl. now destruct (exec re "undefined").
Qed.

(** X12. When the entries whose name is the asked one, letter case
    apart, all spell it the same way, and that spelling is not
    [__proto__], the assertion compares the value of the last of them: it
    passes for an expected string exactly when that value is the string,
    for an expected list exactly when that value is in the list, and for
    an expected regular expression exactly when it matches that value.
    (An entry named [__proto__] is no property of the object, and the
    assertion then compares [undefined], see [header_of_proto].) *)
Theorem header_compares_the_last_value
    (obj : list NameValue.t) (name : string) (x : NameValue.t) :
  (forall y, In y obj ->
     toLowerCase (NameValue.name y) = toLowerCase name ->
     NameValue.name y = NameValue.name x) ->
  toLowerCase (NameValue.name x) = toLowerCase name ->
  NameValue.name x <> "__proto__"%string ->
  find (fun y => String.eqb (NameValue.name y) (NameValue.name x)) (rev obj)
    = Some x ->
  (forall value,
     isOk (header toLowerCase RegExp exec obj name (EString RegExp value))
     = String.eqb (NameValue.value x) value) /\
  (forall values,
     isOk (header toLowerCase RegExp exec obj name (EArray RegExp values))
     = existsb (String.eqb (NameValue.value x)) values) /\
  (forall re,
     isOk (header toLowerCase RegExp exec obj name (ERegExp RegExp re))
     = exec re (NameValue.value x)).
Proof.
  intros Hone Hmatch Hproto Hlast. unfold header.
  rewrite (caselessGet_one_spelling _ _ _ Hone Hmatch Hproto Hlast).
  repeat split.
  - intros value. simpl. now destruct (String.eqb (NameValue.value x) value).
  - intros values. unfold assert.
    change (existsb (strictEquals (Some (NameValue.value x))) values)
      with (existsb (String.eqb (NameValue.value x)) values).
    now destruct (existsb (String.eqb (NameValue.value x)) values).
  - intros re. simpl. now destruct (exec re (NameValue.value x)).
Qed.

End HeaderFacts.

(** ** The documentation header assertion *)

Section DocumentationHeaderFacts.

Variable isValidUUIDV4 : string -> bool.

Lemma documentationHeader_log_url
    (headers : gmap string string) (baseLogUrl id : string) :
  headers !! "x-documentation-url"%string
    = Some (baseLogUrl +:+ "/logs/" +:+ id) ->
  isOk (documentationHeader isValidUUIDV4 headers baseLogUrl)
  = isValidUUIDV4 id.
Proof.
  intros Hget. unfold documentationHeader. rewrite Hget.
  rewrite <- append_assoc, replace_prefix.
  unfold assert. now destruct (isValidUUIDV4 id).
Qed.

(** X13. On a header that holds [baseLogUrl/logs/id], the assertion
    passes exactly when [id] is a valid UUID for the checker: the part
    before the identifier is taken off. *)
Theorem documentationHeader_checks_the_id_of_a_log_url
    (headers : gmap string string) (baseLogUrl id : string) :
  headers !! "x-documentation-url"%string
    = Some (baseLogUrl +:+ "/logs/" +:+ id) ->
  isOk (documentationHeader isValidUUIDV4 headers baseLogUrl)
  = isValidUUIDV4 id.
Proof.
  intros Hget. unfold documentationHeader. rewrite Hget.
  rewrite <- append_assoc, replace_prefix.
  unfold assert. now destruct (isValidUUIDV4 id).
Qed.

(** X14. The base URL is not required to be there: on a header with no
    slash in it, the assertion checks the header as it is, and passes or
    fails the same for every base URL. A missing header fails it. *)
Theorem documentationHeader_does_not_require_the_base
    (headers : gmap string string) (baseLogUrl : string) :
  match headers !! "x-documentation-url"%string with
  | Some value =>
      ~ In "/"%char (list_ascii_of_string value) ->
      isOk (documentationHeader isValidUUIDV4 headers baseLogUrl)
      = isValidUUIDV4 value
  | None =>
      documentationHeader isValidUUIDV4 headers baseLogUrl
      = Throw (assertionError "expected undefined not to be undefined")
  end.
Proof.
  unfold documentationHeader.
  destruct (headers !! "x-documentation-url"%string) as [value|];
    [|reflexivity].
  intros Hslash. rewrite (replace_absent _ value "/"%char).
  - unfold assert. now destruct (isValidUUIDV4 value).
  - apply In_app_string. now left.
  - exact Hslash.
Qed.

(** The checker accepts at least the identifiers [uuidv4()] prints. *)
Hypothesis isValidUUIDV4_accepts :
  forall s, Pattern.isUuidV4 s = true -> isValidUUIDV4 s = true.

Context {Body ServerResponse Req Res : Type}.
Variable newURL : string -> string -> option string.
Variable processRequest :
  IncomingMessage.t -> option Body -> option LogOptions.t -> Result Req.
Variable processResponse :
  ServerResponse -> option string -> option LogOptions.t -> Result Res.
Variable runtime : Runtime.

(** X15. The URL of a log, [{base_url}/logs/{logId}], made with the
    [_id] of a payload that was built without a usable [logId], passes
    the documentation header assertion for that base URL. *)
Theorem generated_id_makes_a_valid_documentation_url
    (rnds : Uuid.Entropy) (req : IncomingMessage.t) (res : ServerResponse)
    (payloadData : PayloadData.t Body) (logOptions : option LogOptions.t)
    (p : OutgoingLogBody.t Req Res)
    (headers : gmap string string) (baseLogUrl : string) :
  Js.truthyString (PayloadData.logId payloadData) = false ->
  constructPayload newURL processRequest processResponse runtime
    rnds req res payloadData logOptions = Ok p ->
  headers !! "x-documentation-url"%string
    = Some (baseLogUrl +:+ "/logs/" +:+ OutgoingLogBody._id p) ->
  documentationHeader isValidUUIDV4 headers baseLogUrl = Ok tt.
Proof.
  intros Hf Hp Hget.
  pose proof (documentationHeader_log_url _ _ _ Hget) as H.
  destruct (constructPayload_inv _ _ _ _ _ _ _ _ _ _ Hp)
    as (pageref & started & request & response & _ & _ & _ & _ & Hid & _).
  rewrite isValidUUIDV4_accepts in H.
  - destruct (documentationHeader isValidUUIDV4 headers baseLogUrl) as [[]|];
      [reflexivity | discriminate].
  - rewrite Hid, orElse_truthy, Hf. apply v4_isUuidV4.
Qed.

End DocumentationHeaderFacts.

(** ** Waiting for the server *)

Section ListeningFacts.

Variable port : Z.
Variable net : nat -> Net.Outcome.

Lemma after_after (n m : nat) (x y : Z) (w : Listening.t) :
  Listening.after n x (Listening.after m y w)
  = Listening.after (n + m) (x + y) w.
Proof.
  unfold Listening.after. cbn [Listening.ending Listening.connections
    Listening.timers]. f_equal; lia.
Qed.

Lemma refused_inv (o : Net.Outcome) :
  Net.refused o = true ->
  exists code, o = Net.Error code /\ String.eqb code "ECONNREFUSED" = true.
Proof. destruct o as [|code]; [discriminate | intros H; now exists code]. Qed.

(** One attempt on a connection that is refused: a socket, a timer, and
    the next attempt. *)
Lemma isListeningWithin_refused (budget attempt : nat) :
  (attempt <= 5)%nat ->
  Net.refused (net attempt) = true ->
  isListeningWithin (S budget) port attempt net
  = Listening.after 1 (300 * Z.of_nat attempt)
      (isListeningWithin budget port (S attempt) net).
Proof.
  intros Ha Hr. cbn [isListeningWithin].
  destruct (Nat.ltb_spec 5 attempt); [lia|].
  destruct (refused_inv _ Hr) as (code & -> & ->). reflexivity.
Qed.

(** One attempt on a connection that is answered, by an acceptance or by
    another error than a refusal. *)
Lemma isListeningWithin_answered (budget attempt : nat) :
  (attempt <= 5)%nat ->
  Net.refused (net attempt) = false ->
  isListeningWithin (S budget) port attempt net
  = match net attempt with
    | Net.Connect => Listening.mk Listening.Resolved 1 500
    | Net.Error code => Listening.mk (Listening.Rethrown code) 1 0
    end.
Proof.
  intros Ha Hr. cbn [isListeningWithin].
  destruct (Nat.ltb_spec 5 attempt); [lia|].
  destruct (net attempt) as [|code]; [reflexivity|].
  simpl in Hr. now rewrite Hr.
Qed.

Lemma isListeningWithin_late (budget attempt : nat) :
  (5 < attempt)%nat ->
  isListeningWithin budget port attempt net
  = Listening.mk (Listening.CannotConnect port) 0 0.
Proof.
  intros Ha. destruct budget; cbn [isListeningWithin];
    now destruct (Nat.ltb_spec 5 attempt); [|lia].
Qed.

(** The budget is never used up, and the wait is bounded from any
    attempt on. *)
Lemma isListeningWithin_bounds (budget attempt : nat) :
  (attempt + budget = 6)%nat ->
  let w := isListeningWithin budget port attempt net in
  Listening.ending w <> Listening.OutOfBudget /\
  (Listening.connections w <= budget)%nat /\
  0 <= Listening.timers w
    <= 4500 - 150 * Z.of_nat attempt * (Z.of_nat attempt - 1).
Proof.
  revert attempt. induction budget as [|budget IH]; intros attempt Hsum.
  - rewrite isListeningWithin_late by lia. simpl.
    repeat split; try discriminate; try lia.
  - destruct (Net.refused (net attempt)) eqn:Hr.
    + rewrite isListeningWithin_refused by (lia || exact Hr).
      specialize (IH (S attempt) ltac:(lia)). cbv zeta in IH.
      destruct IH as (Hend & Hconn & Htime).
      unfold Listening.after.
      cbn [Listening.ending Listening.connections Listening.timers].
      repeat split; try assumption; nia.
    + rewrite isListeningWithin_answered by (lia || exact Hr).
      destruct (net attempt); cbn [Listening.ending Listening.connections
        Listening.timers]; repeat split; try discriminate; nia.
Qed.

(** The wait up to the first connection that is not refused. *)
Lemma isListeningWithin_until (budget attempt k : nat) :
  (attempt + budget = 6)%nat ->
  (attempt <= k <= 5)%nat ->
  (forall i, (attempt <= i < k)%nat -> Net.refused (net i) = true) ->
  Net.refused (net k) = false ->
  isListeningWithin budget port attempt net
  = Listening.after (k - attempt)
      (150 * (Z.of_nat k * (Z.of_nat k - 1)
              - Z.of_nat attempt * (Z.of_nat attempt - 1)))
      match net k with
      | Net.Connect => Listening.mk Listening.Resolved 1 500
      | Net.Error code => Listening.mk (Listening.Rethrown code) 1 0
      end.
Proof.
  revert attempt. induction budget as [|budget IH];
    intros attempt Hsum Hk Hbefore Hanswer; [lia|].
  destruct (Nat.eq_dec attempt k) as [-> | Hne].
  - rewrite isListeningWithin_answered by (lia || exact Hanswer).
    unfold Listening.after. destruct (net k);
      cbn [Listening.ending Listening.connections Listening.timers];
      f_equal; lia.
  - rewrite isListeningWithin_refused by (lia || apply Hbefore; lia).
    rewrite (IH (S attempt)); try lia; try assumption.
    + rewrite after_after. f_equal; lia.
    + intros i Hi. apply Hbefore. lia.
Qed.

(** The wait through refusals only. *)
Lemma isListeningWithin_all_refused (budget attempt : nat) :
  (attempt + budget = 6)%nat ->
  (forall i, (attempt <= i <= 5)%nat -> Net.refused (net i) = true) ->
  isListeningWithin budget port attempt net
  = Listening.after budget
      (4500 - 150 * Z.of_nat attempt * (Z.of_nat attempt - 1))
      (Listening.mk (Listening.CannotConnect port) 0 0).
Proof.
  revert attempt. induction budget as [|budget IH]; intros attempt Hsum Hall.
  - rewrite isListeningWithin_late by lia.
    unfold Listening.after.
    cbn [Listening.ending Listening.connections Listening.timers].
    f_equal; lia.
  - rewrite isListeningWithin_refused by (lia || apply Hall; lia).
    rewrite (IH (S attempt)); try lia.
    + rewrite after_after. f_equal; lia.
    + intros i Hi. apply Hall. lia.
Qed.

(** X16. However the server answers and from whatever attempt the wait
    starts, [isListening] opens at most six sockets and spends at most
    4.5 seconds in its timers, so the wait always ends. *)
Theorem isListening_is_bounded (attempt : nat) :
  let w := isListening port attempt net in
  Listening.ending w <> Listening.OutOfBudget /\
  (Listening.connections w <= 6)%nat /\
  0 <= Listening.timers w <= 4500.
Proof.
  unfold isListening. destruct (Nat.le_gt_cases attempt 6) as [Hle | Hgt].
  - pose proof (isListeningWithin_bounds (6 - attempt) attempt ltac:(lia))
      as H. cbv zeta in *. destruct H as (Hend & Hconn & Htime).
    repeat split; try assumption; nia.
  - rewrite isListeningWithin_late by lia. simpl.
    repeat split; try discriminate; lia.
Qed.

(** X17. The first connection that is not refused decides, if it is one
    of the first six: after [k] refusals the promise resolves half a
    second after an accepted connection, and any other error is rethrown
    at once, leaving the promise unsettled. The timers before that add up
    to [150 k (k - 1)] milliseconds. *)
Theorem isListening_first_answer_decides (k : nat) :
  (k <= 5)%nat ->
  (forall i, (i < k)%nat -> Net.refused (net i) = true) ->
  Net.refused (net k) = false ->
  isListening port 0 net
  = match net k with
    | Net.Connect =>
        Listening.mk Listening.Resolved (S k)
          (150 * Z.of_nat k * (Z.of_nat k - 1) + 500)
    | Net.Error code =>
        Listening.mk (Listening.Rethrown code) (S k)
          (150 * Z.of_nat k * (Z.of_nat k - 1))
    end.
Proof.
  intros Hk Hbefore Hanswer. unfold isListening.
  change (6 - 0)%nat with 6%nat.
  rewrite (isListeningWithin_until 6 0 k); try lia; try assumption.
  - unfold Listening.after. destruct (net k);
      cbn [Listening.ending Listening.connections Listening.timers];
      f_equal; lia.
  - intros i Hi. apply Hbefore. lia.
Qed.

(** X18. Six refusals in a row end the wait: the promise rejects with
    [Cannot connect on port], after six sockets and 4.5 seconds of
    timers, and a seventh connection is never tried. *)
Theorem isListening_gives_up_after_six_refusals :
  (forall i, (i <= 5)%nat -> Net.refused (net i) = true) ->
  isListening port 0 net
  = Listening.mk (Listening.CannotConnect port) 6 4500.
Proof.
  intros Hall. unfold isListening. change (6 - 0)%nat with 6%nat.
  rewrite (isListeningWithin_all_refused 6 0); try lia.
  - reflexivity.
  - intros i Hi. apply Hall. lia.
Qed.

End ListeningFacts.

(** * The test helpers on concrete inputs *)

Section HelperExamples.

Import Fixture Fixture2.

Example testStartedDateTime_samples :
  map Regex.testStartedDateTime
    ["2022-06-30T10:21:55.394Z"; "2022-08-17T19:23:31Z";
     "+275760-09-13T00:00:00.000Z"; "2022-06-30T10:21:55.394"]%string
  = [true; true; true; false].
Proof. reflexivity. Qed.

Example testUuid_samples :
  map Regex.testUuid
    ["9b1deb4d-3b7d-4bad-9bdd-2b0d7b3dcb6d";
     "9B1DEB4D-3B7D-1BAD-0BDD-2B0D7B3DCB6D";
     "9b1deb4d-3b7d-6bad-9bdd-2b0d7b3dcb6d"]%string
  = [true; true; false].
Proof. reflexivity. Qed.

(** Duplicates, an array index and [__proto__]: the object keeps the
    first position of a name and its last value, and [Object.keys] puts
    the index first. *)
Example arrayToObject_sample :
  let o :=
    arrayToObject
      [NameValue.mk "host" "a"; NameValue.mk "Host" "b";
       NameValue.mk "10" "x"; NameValue.mk "host" "c";
       NameValue.mk "__proto__" "p"] in
  o = [("host", "c"); ("Host", "b"); ("10", "x")]%string /\
  JsObject.ownKeys o = ["10"; "host"; "Host"]%string.
Proof. split; reflexivity. Qed.

(** Two spellings of one name: the value compared is the one under the
    key created last, not the one of the last entry. *)
Example header_two_spellings :
  map (fun expected =>
         isOk (Fixture2.header
                 [NameValue.mk "X-Id" "a"; NameValue.mk "x-id" "b";
                  NameValue.mk "X-Id" "c"]
                 "x-id" (EString _ expected)))
      ["a"; "b"; "c"]%string
  = [false; true; false].
Proof. reflexivity. Qed.

Example header_samples :
  Fixture2.header
    [NameValue.mk "host" "localhost:8000";
     NameValue.mk "connection" "keep-alive"]
    "Connection" (EArray _ ["close"; "keep-alive"]%string)
  = Ok tt /\
  Fixture2.header
    [NameValue.mk "content-length" "982"] "content-length"
    (ERegExp _ (repeat Regex.digit 3))
  = Ok tt /\
  isOk (Fixture2.header [NameValue.mk "host" "localhost:8000"] "connection"
          (EString _ "close"))
  = false.
Proof. repeat split. Qed.

(** A header named [__proto__] is lost on the way: the assertion compares
    [undefined]. *)
Example header_of_proto :
  isOk (Fixture2.header [NameValue.mk "__proto__" "v"] "__proto__"
          (EString _ "v")) = false /\
  isOk (Fixture2.header [NameValue.mk "__proto__" "v"] "__proto__"
          (ERegExp _ (map Regex.lit (list_ascii_of_string "undefined"))))
  = true.
Proof. split; reflexivity. Qed.

(** Names that are array indices are listed first, in ascending order,
    whatever the order of the array. *)
Example arrayToObject_index_names :
  let array :=
    [NameValue.mk "b" "x"; NameValue.mk "2" "y"; NameValue.mk "1" "z"] in
  JsObject.ownKeys (arrayToObject array) = ["1"; "2"; "b"]%string /\
  map (JsObject.getOwn (arrayToObject array)) ["b"; "2"; "1"]%string
  = [Some "x"; Some "y"; Some "z"]%string.
Proof. split; reflexivity. Qed.

Example documentationHeader_samples :
  Fixture2.documentationHeader
    {[ "x-documentation-url"%string :=
         "https://docs.example.com/logs/9b1deb4d-3b7d-4bad-9bdd-2b0d7b3dcb6d"%string ]}
    "https://docs.example.com"
  = Ok tt /\
  Fixture2.documentationHeader
    {[ "x-documentation-url"%string :=
         "https://docs.example.com/logs/my-id"%string ]}
    "https://docs.example.com"
  = Throw (assertionError "expected false to be true") /\
  Fixture2.documentationHeader
    {[ "X-Documentation-Url"%string :=
         "https://docs.example.com/logs/9b1deb4d-3b7d-4bad-9bdd-2b0d7b3dcb6d"%string ]}
    "https://docs.example.com"
  = Throw (assertionError "expected undefined not to be undefined").
Proof. repeat split. Qed.

Example isListening_samples :
  map (fun n => isListening 8000 0 (refusing n)) [0; 2; 5; 6]%nat
  = [Listening.mk Listening.Resolved 1 500;
     Listening.mk Listening.Resolved 3 800;
     Listening.mk Listening.Resolved 6 3500;
     Listening.mk (Listening.CannotConnect 8000) 6 4500].
Proof. reflexivity. Qed.

Lemma logId_makes_random_source_irrelevant_witness :
  construct
    (payloadData "owlbert-api-key" (Some "my-id"%string) None started started)
    None
  = constructPayload newURL processRequest processResponse runtime
      (fun _ => Byte.x00) req 200
      (payloadData "owlbert-api-key" (Some "my-id"%string) None started
         started)
      None.
Proof.
  apply (logId_makes_random_source_irrelevant newURL processRequest
           processResponse runtime rnds req 200 None
           (payloadData "owlbert-api-key" (Some "my-id"%string) None started
              started)
           (fun _ => Byte.x00)).
  reflexivity.
Defined.

Lemma routePath_makes_url_irrelevant_witness :
  construct
    (payloadData "owlbert-api-key" None (Some "/users/{id}"%string) started
       started)
    None
  = constructPayload (fun _ _ => None) processRequest processResponse runtime
      rnds req 200
      (payloadData "owlbert-api-key" None (Some "/users/{id}"%string) started
         started)
      None.
Proof.
  apply (routePath_makes_url_irrelevant newURL processRequest
           processResponse runtime rnds req 200 None
           (payloadData "owlbert-api-key" None (Some "/users/{id}"%string)
              started started)
           (fun _ _ => None)).
  reflexivity.
Defined.

Lemma startedDateTime_passes_the_test_witness :
  exists p,
    construct
      (payloadData "owlbert-api-key" None None Date.maxTime Date.maxTime)
      None = Ok p /\
    Forall
      (fun entry =>
         Regex.testStartedDateTime (Entry.startedDateTime entry) = true)
      (OutgoingLogBody.entries p).
Proof.
  eexists. split; [reflexivity|].
  apply (startedDateTime_passes_the_test newURL processRequest
           processResponse runtime rnds req 200 None
           (payloadData "owlbert-api-key" None None Date.maxTime
              Date.maxTime)).
  reflexivity.
Defined.

Lemma generated_id_passes_the_test_witness :
  exists p,
    construct
      (payloadData "owlbert-api-key" (Some ""%string) None started started)
      None = Ok p /\
    Regex.testUuid (OutgoingLogBody._id p) = true.
Proof.
  eexists. split; [reflexivity|].
  apply (generated_id_passes_the_test newURL processRequest processResponse
           runtime rnds req 200 None
           (payloadData "owlbert-api-key" (Some ""%string) None started
              started));
    reflexivity.
Defined.


Lemma header_fails_on_a_missing_header_witness :
  (forall value,
     isOk (Fixture2.header [NameValue.mk "host" "localhost:8000"]
             "Connection" (EString _ value)) = false) /\
  (forall values,
     isOk (Fixture2.header [NameValue.mk "host" "localhost:8000"]
             "Connection" (EArray _ values)) = false) /\
  (forall re,
     isOk (Fixture2.header [NameValue.mk "host" "localhost:8000"]
             "Connection" (ERegExp _ re))
     = Regex.search re "undefined").
Proof.
  apply (header_fails_on_a_missing_header toLowerCase (list Regex.CharSet)
           Regex.search [NameValue.mk "host" "localhost:8000"] "Connection").
  intros x [<- | []]. vm_compute. discriminate.
Defined.

Lemma header_compares_the_last_value_witness :
  let obj := [NameValue.mk "set-cookie" "a=1"; NameValue.mk "host" "h";
              NameValue.mk "set-cookie" "b=2"] in
  (forall value,
     isOk (Fixture2.header obj "Set-Cookie" (EString _ value))
     = String.eqb "b=2" value) /\
  (forall values,
     isOk (Fixture2.header obj "Set-Cookie" (EArray _ values))
     = existsb (String.eqb "b=2") values) /\
  (forall re,
     isOk (Fixture2.header obj "Set-Cookie" (ERegExp _ re))
     = Regex.search re "b=2").
Proof.
  intros obj.
  apply (header_compares_the_last_value toLowerCase (list Regex.CharSet)
           Regex.search obj "Set-Cookie" (NameValue.mk "set-cookie" "b=2")).
  - intros y [<- | [<- | [<- | []]]]; vm_compute; intros H;
      reflexivity || discriminate H.
  - reflexivity.
  - discriminate.
  - reflexivity.
Defined.

Lemma documentationHeader_checks_the_id_of_a_log_url_witness :
  isOk (Fixture2.documentationHeader
          {[ "x-documentation-url"%string :=
               "https://docs.example.com/logs/my-id"%string ]}
          "https://docs.example.com")
  = isValidUUIDV4 "my-id".
Proof.
  apply (documentationHeader_checks_the_id_of_a_log_url isValidUUIDV4
           {[ "x-documentation-url"%string :=
                "https://docs.example.com/logs/my-id"%string ]}
           "https://docs.example.com" "my-id").
  reflexivity.
Defined.

(** A header that is the bare identifier passes, whatever the base. *)
Example documentationHeader_bare_id :
  Fixture2.documentationHeader
    {[ "x-documentation-url"%string :=
         "9b1deb4d-3b7d-4bad-9bdd-2b0d7b3dcb6d"%string ]}
    "https://docs.example.com"
  = Ok tt.
Proof. reflexivity. Qed.

Lemma generated_id_makes_a_valid_documentation_url_witness :
  exists p,
    construct (payloadData "owlbert-api-key" None None started started)
      None = Ok p /\
    Fixture2.documentationHeader
      {[ "x-documentation-url"%string :=
           ("https://docs.example.com" +:+ "/logs/" +:+ OutgoingLogBody._id p)%string ]}
      "https://docs.example.com"
    = Ok tt.
Proof.
  eexists. split; [reflexivity|].
  eapply (generated_id_makes_a_valid_documentation_url isValidUUIDV4
            isUuidV4_isValidUUIDV4 newURL processRequest processResponse
            runtime rnds req 200
            (payloadData "owlbert-api-key" None None started started) None).
  - reflexivity.
  - reflexivity.
  - reflexivity.
Defined.

Lemma isListening_first_answer_decides_witness :
  isListening 8000 0 (refusing 2)
  = match refusing 2 2 with
    | Net.Connect =>
        Listening.mk Listening.Resolved 3 (150 * 2 * (2 - 1) + 500)
    | Net.Error code => Listening.mk (Listening.Rethrown code) 3 (150 * 2 * (2 - 1))
    end.
Proof.
  apply (isListening_first_answer_decides 8000 (refusing 2) 2).
  - lia.
  - intros [|[|i]] Hi; reflexivity || lia.
  - reflexivity.
Defined.

Lemma isListening_gives_up_after_six_refusals_witness :
  isListening 8000 0 (refusing 6)
  = Listening.mk (Listening.CannotConnect 8000) 6 4500.
Proof.
  apply (isListening_gives_up_after_six_refusals 8000 (refusing 6)).
  intros [|[|[|[|[|[|i]]]]]] Hi; reflexivity || lia.
Defined.

End HelperExamples.

(** * Reading the payload back *)

(** ** The timestamp *)

Section IsoParseFacts.

Import IsoParse.

(** The fields of a time value give the time value back. *)
Lemma timeOfFields_fieldsOf (tv : Z) : timeOfFields (Date.fieldsOf tv) = tv.
Proof.
  unfold timeOfFields, Date.fieldsOf.
  pose proof (civilFromDays_spec (tv / Date.msPerDay)) as Hspec.
  destruct (Date.civilFromDays (tv / Date.msPerDay)) as [[y m] d].
  cbv zeta in Hspec. destruct Hspec as (_ & _ & _ & Hd).
  cbn [Date.year Date.month Date.day Date.hours Date.minutes Date.seconds
       Date.millis].
  replace (Date.dayFromYear y + Date.daysBeforeMonth (Date.isLeap y) m
           + (d - 1)) with (tv / Date.msPerDay) by lia.
  unfold Date.msPerDay. Z.div_mod_to_equations. lia.
Qed.

Lemma digit_is_no_sign (c : ascii) :
  Pattern.isDigit c = true ->
  Ascii.eqb c "+" = false /\ Ascii.eqb c "-" = false.
Proof. by_ascii_cases c; now split. Qed.

Lemma readDigits_padDigits (w : nat) (n acc : Z) (rest : string) :
  readDigits w acc (Date.padDigits w n +:+ rest)
  = Some (acc * 10 ^ Z.of_nat w + n mod 10 ^ Z.of_nat w, rest).
Proof.
  revert acc. induction w as [|w IH]; intros acc.
  - simpl. rewrite Z.mod_1_r. do 2 f_equal. lia.
  - change (Date.padDigits (S w) n +:+ rest)
      with (String (Date.digitChar ((n / 10 ^ Z.of_nat w) mod 10))
              (Date.padDigits w n +:+ rest)).
    cbn [readDigits].
    assert (0 <= (n / 10 ^ Z.of_nat w) mod 10 < 10) as Hd
      by (apply Z.mod_pos_bound; lia).
    rewrite (isDigit_digitChar _ Hd), (digitValue_digitChar _ Hd), IH.
    do 2 f_equal.
    rewrite Nat2Z.inj_succ, Z.pow_succ_r by lia.
    assert (0 < 10 ^ Z.of_nat w) as Hpos by (apply Z.pow_pos_nonneg; lia).
    rewrite (Z.mul_comm 10 (10 ^ Z.of_nat w)), Z.rem_mul_r by lia. lia.
Qed.

Lemma readDigits_exact (w : nat) (n : Z) (rest : string) :
  0 <= n < 10 ^ Z.of_nat w ->
  readDigits w 0 (Date.padDigits w n +:+ rest) = Some (n, rest).
Proof.
  intros Hn. rewrite readDigits_padDigits, Z.mod_small by exact Hn.
  reflexivity.
Qed.

Lemma expect_append (c : ascii) (s : string) :
  expect c (String c EmptyString +:+ s) = Some s.
Proof.
  change (expect c (String c s) = Some s). simpl.
  now rewrite Ascii.eqb_refl.
Qed.

Lemma readYear_yearString (y : Z) (rest : string) :
  -271821 <= y <= 275760 ->
  readYear (Date.yearString y +:+ rest) = Some (y, rest).
Proof.
  intros Hy. unfold Date.yearString.
  destruct ((0 <=? y) && (y <=? 9999)) eqn:Hshort.
  - apply andb_true_iff in Hshort. destruct Hshort as [H0 H1].
    apply Z.leb_le in H0, H1.
    pose proof (readDigits_exact 4 y rest ltac:(simpl; lia)) as Hread.
    change (Date.padDigits 4 y +:+ rest)
      with (String (Date.digitChar ((y / 10 ^ Z.of_nat 3) mod 10))
              (Date.padDigits 3 y +:+ rest)) in *.
    unfold readYear.
    destruct (digit_is_no_sign (Date.digitChar ((y / 10 ^ Z.of_nat 3) mod 10)))
      as [-> ->]; [|exact Hread].
    apply isDigit_digitChar, Z.mod_pos_bound. lia.
  - change (String (if y <? 0 then "-"%char else "+"%char)
              (Date.padDigits 6 (Z.abs y)) +:+ rest)
      with (String (if y <? 0 then "-"%char else "+"%char)
              (Date.padDigits 6 (Z.abs y) +:+ rest)).
    unfold readYear.
    pose proof (readDigits_exact 6 (Z.abs y) rest ltac:(simpl; lia)) as Hread.
    destruct (Z.ltb_spec y 0);
      cbn -[readDigits Date.padDigits String.append Z.abs Z.opp];
      rewrite Hread; cbn -[Z.abs Z.opp]; do 2 f_equal; lia.
Qed.

(** What [toISOString] prints for fields in their ranges reads back as
    those fields. *)
Lemma parseFields_formatFields (f : Date.Fields) :
  -271821 <= Date.year f <= 275760 ->
  0 <= Date.month f < 100 -> 0 <= Date.day f < 100 ->
  0 <= Date.hours f < 100 -> 0 <= Date.minutes f < 100 ->
  0 <= Date.seconds f < 100 -> 0 <= Date.millis f < 1000 ->
  parseFields (Date.formatFields f) = Some f.
Proof.
  intros Hy Hm Hd Hh Hmi Hs Hms.
  unfold parseFields, Date.formatFields.
  rewrite readYear_yearString by exact Hy.
  do 6 (cbn -[readDigits Date.padDigits]; rewrite expect_append;
        cbn -[readDigits Date.padDigits];
        rewrite readDigits_exact by (simpl; lia)).
  cbn. now destruct f.
Qed.

(** The timestamp of a valid date reads back as its time value: the
    string keeps the instant to the millisecond. *)
Lemma parse_toISOString (d : Date.t) (tv : Z) (s : string) :
  Date.wf d -> Date.timeValue d = Js.Num tv ->
  Date.toISOString d = Ok s ->
  parse s = Some tv.
Proof.
  unfold Date.wf, Date.toISOString. intros Hwf Htv Hs.
  rewrite Htv in *. injection Hs as <-.
  pose proof (fieldsOf_ranges tv Hwf) as Hr. cbv zeta in Hr.
  unfold parse. rewrite parseFields_formatFields by lia.
  simpl. now rewrite timeOfFields_fieldsOf.
Qed.

End IsoParseFacts.

(** ** The timestamp of a payload *)

Section TimestampFacts.

Context {Body ServerResponse Req Res : Type}.
Variable newURL : string -> string -> option string.
Variable processRequest :
  IncomingMessage.t -> option Body -> option LogOptions.t -> Result Req.
Variable processResponse :
  ServerResponse -> option string -> option LogOptions.t -> Result Res.
Variable runtime : Runtime.

Variable rnds : Uuid.Entropy.
Variable req : IncomingMessage.t.
Variable res : ServerResponse.
Variable logOptions : option LogOptions.t.

(** X19. [startedDateTime] keeps the start time to the millisecond: read
    as an ECMAScript date-time string, the entry's timestamp is the time
    value of the date the caller passed, over the whole range of dates. *)
Theorem startedDateTime_reads_back_as_the_start_time
    (payloadData : PayloadData.t Body) (p : OutgoingLogBody.t Req Res)
    (tv : Z) :
  Date.wf (PayloadData.startedDateTime payloadData) ->
  Date.timeValue (PayloadData.startedDateTime payloadData) = Js.Num tv ->
  constructPayload newURL processRequest processResponse runtime
    rnds req res payloadData logOptions = Ok p ->
  Forall
    (fun entry => IsoParse.parse (Entry.startedDateTime entry) = Some tv)
    (OutgoingLogBody.entries p).
Proof.
  intros Hwf Htv Hp.
  destruct (constructPayload_inv _ _ _ _ _ _ _ _ _ _ Hp)
    as (pageref & started & request & response & _ & Hiso & _ & _ & _ & _
        & _ & _ & _ & Hentries).
  rewrite Hentries. constructor; [|constructor].
  cbn [Entry.startedDateTime].
  exact (parse_toISOString _ _ _ Hwf Htv Hiso).
Qed.

(** X20. Two payloads carry the same timestamps only when their requests
    started at the same millisecond, whatever else the two calls were
    given. *)
Theorem equal_timestamps_mean_equal_start_times
    (rnds' : Uuid.Entropy) (req' : IncomingMessage.t)
    (res' : ServerResponse) (logOptions' : option LogOptions.t)
    (payloadData payloadData' : PayloadData.t Body)
    (p p' : OutgoingLogBody.t Req Res) :
  Date.wf (PayloadData.startedDateTime payloadData) ->
  Date.wf (PayloadData.startedDateTime payloadData') ->
  constructPayload newURL processRequest processResponse runtime
    rnds req res payloadData logOptions = Ok p ->
  constructPayload newURL processRequest processResponse runtime
    rnds' req' res' payloadData' logOptions' = Ok p' ->
  map Entry.startedDateTime (OutgoingLogBody.entries p)
  = map Entry.startedDateTime (OutgoingLogBody.entries p') ->
  Date.timeValue (PayloadData.startedDateTime payloadData)
  = Date.timeValue (PayloadData.startedDateTime payloadData').
Proof.
  intros Hwf Hwf' Hp Hp' Heq.
  destruct (constructPayload_inv _ _ _ _ _ _ _ _ _ _ Hp)
    as (pageref & started & request & response & _ & Hiso & _ & _ & _ & _
        & _ & _ & _ & Hentries).
  destruct (constructPayload_inv _ _ _ _ _ _ _ _ _ _ Hp')
    as (pageref' & started' & request' & response' & _ & Hiso' & _ & _ & _
        & _ & _ & _ & _ & Hentries').
  rewrite Hentries, Hentries' in Heq. cbn [map Entry.startedDateTime] in Heq.
  injection Heq as <-.
  destruct (Date.timeValue (PayloadData.startedDateTime payloadData))
    as [tv|] eqn:Htv;
    [|unfold Date.toISOString in Hiso; rewrite Htv in Hiso; discriminate].
  destruct (Date.timeValue (PayloadData.startedDateTime payloadData'))
    as [tv'|] eqn:Htv';
    [|unfold Date.toISOString in Hiso'; rewrite Htv' in Hiso'; discriminate].
  pose proof (parse_toISOString _ _ _ Hwf Htv Hiso) as H1.
  pose proof (parse_toISOString _ _ _ Hwf' Htv' Hiso') as H2.
  congruence.
Qed.

End TimestampFacts.

Section TimestampExamples.

Import Fixture.

Example parse_samples :
  IsoParse.parse "2022-06-30T10:21:55.394Z" = Some started /\
  IsoParse.parse "1970-01-01T00:00:00.000Z" = Some 0 /\
  IsoParse.parse "1969-12-31T23:59:59.999Z" = Some (-1) /\
  IsoParse.parse "+275760-09-13T00:00:00.000Z" = Some Date.maxTime /\
  IsoParse.parse "-271821-04-20T00:00:00.000Z" = Some (- Date.maxTime) /\
  IsoParse.parse "2022-06-30 10:21:55.394Z" = None /\
  IsoParse.parse "2022-06-30T10:21:55Z" = None.
Proof. repeat split; reflexivity. Qed.

Lemma startedDateTime_reads_back_as_the_start_time_witness :
  exists p,
    construct
      (payloadData "owlbert-api-key" None None (- Date.maxTime) started)
      None = Ok p /\
    Forall
      (fun entry =>
         IsoParse.parse (Entry.startedDateTime entry)
         = Some (- Date.maxTime))
      (OutgoingLogBody.entries p).
Proof.
  eexists. split; [reflexivity|].
  apply (startedDateTime_reads_back_as_the_start_time newURL processRequest
           processResponse runtime rnds req 200 None
           (payloadData "owlbert-api-key" None None (- Date.maxTime)
              started)).
  - vm_compute. discriminate.
  - reflexivity.
  - reflexivity.
Defined.

Lemma equal_timestamps_mean_equal_start_times_witness :
  Date.timeValue
    (PayloadData.startedDateTime
       (payloadData "owlbert-api-key" None None started started))
  = Date.timeValue
      (PayloadData.startedDateTime
         (payloadData "other-api-key" (Some "log-1"%string)
            (Some "/pets"%string) started (started + 25))).
Proof.
  eapply (equal_timestamps_mean_equal_start_times newURL processRequest
            processResponse runtime rnds req 200 None rnds req 404 None).
  - vm_compute. discriminate.
  - vm_compute. discriminate.
  - reflexivity.
  - reflexivity.
  - reflexivity.
Defined.

End TimestampExamples.
